(** * ManageTeam Vault client (src/index.js): a shallow embedding

    The client caches a Vault token, renews it through an auth strategy
    (built in: Kubernetes service-account login) and proxies authenticated
    HTTP requests.  Asynchronous functions become computations in a small
    state/exception/trace monad over the object's fields and the clock;
    the file system, the process environment and the HTTP transport are an
    explicit [World]. *)

From Stdlib Require Import ZArith String Ascii List Bool Lia.
From stdpp Require Import base option strings gmap.
Import ListNotations.

Local Open Scope Z_scope.
Local Open Scope string_scope.
Local Open Scope list_scope.

(** ** JavaScript numbers, as far as the client uses them

    Timestamps are integer milliseconds and lease durations integer
    seconds; the one non-integer that can arise is NaN
    ([undefined * 1000]).  [Num z] is the double equal to the integer [z],
    and the operations below compute exactly: that is what the doubles of
    the source do while operands and result are safe integers
    ([safe_integer], further down); beyond that range a double result is
    rounded ([to_double]). *)

Inductive jsnum : Type :=
| NaN
| Num (z : Z).

Definition jsadd (a b : jsnum) : jsnum :=
  match a, b with Num x, Num y => Num (x + y) | _, _ => NaN end.

Definition jssub (a b : jsnum) : jsnum :=
  match a, b with Num x, Num y => Num (x - y) | _, _ => NaN end.

Definition jsmul (a b : jsnum) : jsnum :=
  match a, b with Num x, Num y => Num (x * y) | _, _ => NaN end.

(** [a > b]: false as soon as one side is NaN. *)
Definition jsgt (a b : jsnum) : bool :=
  match a, b with Num x, Num y => Z.ltb y x | _, _ => false end.

(** ToNumber of a numeric field that may be absent. *)
Definition to_number (o : option Z) : jsnum :=
  match o with Some z => Num z | None => NaN end.

(** [!s] for a string that may be undefined: only a non-empty string
    is truthy. *)
Definition truthy (o : option string) : bool :=
  match o with
  | Some s => negb (String.eqb s "")
  | None => false
  end.

(** [a || b] on strings. *)
Definition or_else (o : option string) (d : string) : string :=
  match o with
  | Some s => if String.eqb s "" then d else s
  | None => d
  end.

(** Values that flow through the client untouched: what an error handler
    or a strategy returns, a response body, a header value. *)
Inductive value : Type :=
| VUndefined
| VString (s : string)
| VJson (text : string).

(** ** Data *)

(** https.Agent, determined by the options it was built with. *)
Record Agent : Type := mkAgent {
  rejectUnauthorized : option bool;
  ca : option string
}.

(** Body of the login response, typed after the wire contract
    [{ auth: { client_token: string, lease_duration: number } }];
    every level may be absent. *)
Record AuthData : Type := mkAuthData {
  client_token : option string;
  lease_duration : option Z
}.

Record LoginData : Type := mkLoginData { data_auth : option AuthData }.

Record LoginResponse : Type := mkLoginResponse { login_data : option LoginData }.

Record LoginBody : Type := mkLoginBody { jwt : string; body_role : string }.

(** The argument of [request], and what reaches axios. *)
Record RequestParams : Type := mkParams {
  p_baseURL : option string;
  p_url : option string;
  p_method : option string;
  p_httpsAgent : option Agent;
  p_data : option value;
  p_headers : option (gmap string value)
}.

Record Response : Type := mkResponse { response_data : value }.

(** An error raised by the file system or by axios: its message and,
    for an HTTP error status, the server's body ([e.response.data]). *)
Record IoError : Type := mkIoError {
  io_message : string;
  io_response : option string
}.

(** Errors, one constructor per [new Error(...)] of the source, holding
    the parts interpolated into its message. *)
Inductive Error : Type :=
| UnsupportedAuthMethod (name : string)
    (* Vault: Unsupported auth method <name> *)
| SslCertNotFound (path : string)
    (* sslCertPath: file not found <path> *)
| InvalidBaseUrl (url : string)
    (* Invalid baseUrl constructor parameter (<url>) *)
| ServiceAccountTokenNotFound (path : string)
    (* serviceAccountTokenPath: file not found <path> *)
| TokenRefreshError (url : string) (cause : Error)
    (* Vault token refresh error: unsuccessful POST <url>, <cause> *)
| UnrecognizedResponse (data : option LoginData)
    (* Vault auth: unrecognized response: <data> *)
| RequestError (params : RequestParams) (cause : Error) (tok : string)
    (* Vault: <method> request to <baseURL><url> failed, <cause>; ... *)
| ModuleError (cause : Error)
    (* ManageTeamVault module error: <cause> *)
| External (e : IoError)
    (* rejected by fs.readFile or axios *)
| NotAFunction (what : string)
    (* TypeError: calling a property that is undefined *)
| UserError (msg : string).
    (* raised by caller-supplied code *)

Inductive Outcome (A : Type) : Type :=
| Return (a : A)
| Throw (e : Error).
Arguments Return {A} a.
Arguments Throw {A} e.

Inductive IoResult (A : Type) : Type :=
| Resolve (a : A)
| Reject (e : IoError).
Arguments Resolve {A} a.
Arguments Reject {A} e.

(** What an execution does that an observer outside can see. *)
Inductive Event : Type :=
| EvAuth
    (* the configured auth strategy is called *)
| EvReadFile (path : string)
| EvPost (url : string) (body : LoginBody) (agent : Agent)
    (* axios.post: the login call *)
| EvRequest (params : RequestParams)
    (* axios.request: the data call *)
| EvErrorHandler (e : Error).
    (* this.errorHandler is called with e *)

Definition is_network_call (ev : Event) : bool :=
  match ev with
  | EvPost _ _ _ | EvRequest _ => true
  | _ => false
  end.

(** The collaborators: environment variables, file system, transport, and
    how long each asynchronous operation takes (milliseconds). *)
Record World : Type := mkWorld {
  process_env : string -> option string;
  existsSync : string -> bool;
  readFile : string -> IoResult string;
  axios_post : string -> LoginBody -> Agent -> IoResult LoginResponse;
  axios_request : RequestParams -> IoResult Response;
  elapsed : Event -> N
}.

(** The fields of a [ManageTeamVault] object that hold data. *)
Record Vault : Type := mkVault {
  baseUrl : string;
  sslCertPath : string;
  ignoreSslCertCheck : bool;
  httpsAgent : option Agent;
  token : string;
  tokenExpiresAt : jsnum
}.

Definition set_httpsAgent (a : option Agent) (v : Vault) : Vault :=
  mkVault (baseUrl v) (sslCertPath v) (ignoreSslCertCheck v) a
          (token v) (tokenExpiresAt v).

Definition set_token (s : string) (v : Vault) : Vault :=
  mkVault (baseUrl v) (sslCertPath v) (ignoreSslCertCheck v) (httpsAgent v)
          s (tokenExpiresAt v).

Definition set_tokenExpiresAt (n : jsnum) (v : Vault) : Vault :=
  mkVault (baseUrl v) (sslCertPath v) (ignoreSslCertCheck v) (httpsAgent v)
          (token v) n.

(** ** The monad of asynchronous methods

    A method runs from the object's fields and the clock; it ends with a
    value or a thrown error, new fields, a later clock, and the events it
    caused, oldest first. *)

Record Run (A : Type) : Type := mkRun {
  outcome : Outcome A;
  vault : Vault;
  clock : Z;
  trace : list Event
}.
Arguments mkRun {A} _ _ _ _.
Arguments outcome {A} _.
Arguments vault {A} _.
Arguments clock {A} _.
Arguments trace {A} _.

Definition M (A : Type) : Type := Vault -> Z -> Run A.

Definition ret {A} (a : A) : M A :=
  fun v t => mkRun (Return a) v t [].

Definition throw {A} (e : Error) : M A :=
  fun v t => mkRun (Throw e) v t [].

Definition bind {A B} (m : M A) (k : A -> M B) : M B :=
  fun v t =>
    match m v t with
    | mkRun (Return a) v1 t1 tr1 =>
        match k a v1 t1 with
        | mkRun o v2 t2 tr2 => mkRun o v2 t2 (tr1 ++ tr2)
        end
    | mkRun (Throw e) v1 t1 tr1 => mkRun (Throw e) v1 t1 tr1
    end.

(** [try { m } catch (e) { h e }] *)
Definition try_catch {A} (m : M A) (h : Error -> M A) : M A :=
  fun v t =>
    match m v t with
    | mkRun (Return a) v1 t1 tr1 => mkRun (Return a) v1 t1 tr1
    | mkRun (Throw e) v1 t1 tr1 =>
        match h e v1 t1 with
        | mkRun o v2 t2 tr2 => mkRun o v2 t2 (tr1 ++ tr2)
        end
    end.

Notation "'do' x <- m ; k" := (bind m (fun x => k))
  (at level 10, x name, m at level 100, k at level 200,
   format "'[v' 'do'  x  <-  m ; '/' k ']'").
Notation "'run' m ; k" := (bind m (fun _ => k))
  (at level 10, m at level 100, k at level 200,
   format "'[v' 'run'  m ; '/' k ']'").

(** [this.f] *)
Definition this {A} (f : Vault -> A) : M A :=
  fun v t => mkRun (Return (f v)) v t [].

(** [this.f = x] *)
Definition assign (upd : Vault -> Vault) : M unit :=
  fun v t => mkRun (Return tt) (upd v) t [].

(** [Date.now()] *)
Definition Date_now : M Z :=
  fun v t => mkRun (Return t) v t [].

(** [await] of an operation of the world: the event is recorded, the
    clock moves on by the time the operation took, and a rejection is
    thrown at the [await]. *)
Definition await {A} (w : World) (ev : Event) (r : IoResult A) : M A :=
  fun v t =>
    mkRun (match r with Resolve a => Return a | Reject e => Throw (External e) end)
          v (t + Z.of_N (elapsed w ev)) [ev].

(** ** Module-level constants and helpers *)

Definition tokenRenewalCliff : Z := 30 * 1000.

Definition readFileAsync (w : World) (path : string) : M string :=
  await w (EvReadFile path) (readFile w path).

Definition env_is (w : World) (name val : string) : bool :=
  match process_env w name with
  | Some s => String.eqb s val
  | None => false
  end.

Module defaults.
Definition getIgnoreSslCertCheck (w : World) : bool :=
  env_is w "APP__ENV_NAME" "local" || env_is w "APP__ENV_NAME" "test".
Definition getBaseUrl (w : World) : string :=
  or_else (process_env w "VAULT_BASE_URL")
          "vault.nonprod.manageteam.internal:8200/v1".
Definition getAuthRole (w : World) : string :=
  or_else (process_env w "K8S_SERVICE_ACCOUNT_NAME") "blockchain".
Definition getAuthServiceAccountPath (w : World) : string :=
  or_else (process_env w "K8S_SERVICE_ACCOUNT_TOKEN_PATH")
          "/var/run/secrets/kubernetes.io/serviceaccount/token".
Definition getSslCertPath (w : World) : string :=
  or_else (process_env w "VAULT_CA_CERT_PATH") "/var/run/secrets/vault/ca.crt".
Definition getToken (w : World) : string :=
  or_else (process_env w "VAULT_TOKEN") "".
Definition getAuthMethod (w : World) : string :=
  or_else (process_env w "VAULT_AUTH_METHOD") "kubernetes".
(** The default policy throws a wrapping error. *)
Definition getErrorHandler : Error -> Outcome value :=
  fun e => Throw (ModuleError e).
End defaults.

(** [config.authOptions], as the Kubernetes strategy destructures it. *)
Record AuthOptions : Type := mkAuthOptions {
  serviceAccountTokenPath : option string;
  role : option string
}.

(** [config.authMethod]: the name of a built-in strategy, or a function
    called with [this] bound to the client. *)
Inductive AuthMethod : Type :=
| AuthName (name : string)
| AuthFunction (f : AuthOptions -> M value).

(** What the constructor's closure and [this.errorHandler] hold; the data
    fields live in [Vault].  The policy is a function of the error: it
    returns a value or throws, and leaves the client's fields alone. *)
Record Client : Type := mkClient {
  authMethod : AuthMethod;
  authOptions : AuthOptions;
  errorHandler : Error -> Outcome value
}.

(** [this.errorHandler(e)] *)
Definition call_errorHandler (c : Client) (e : Error) : M value :=
  fun v t => mkRun (errorHandler c e) v t [EvErrorHandler e].

Definition emit (ev : Event) : M unit :=
  fun v t => mkRun (Return tt) v t [ev].

(** ** [getHttpsAgent]

    As every method here, a call runs to its end before the next one
    starts; two calls that overlap at the [await] of the file read are
    outside this embedding. *)

Definition getHttpsAgent (w : World) : M Agent :=
  do cached <- this httpsAgent;
  match cached with
  | Some agent => ret agent
  | None =>
      do ignore <- this ignoreSslCertCheck;
      do config <-
        (if ignore then ret (mkAgent (Some false) None)
         else
           do path <- this sslCertPath;
           do cert <- readFileAsync w path;
           ret (mkAgent None (Some cert)));
      run assign (set_httpsAgent (Some config));
      ret config
  end.

(** ** The Kubernetes strategy, [authMethods.kubernetes] *)

Definition login_url (base : string) : string :=
  base +:+ "/auth/kubernetes/login".

(** What the strategy does with a response that passed the login call:
    the guard of line 64, then the update of lines 69-72. *)
Definition handle_response (c : Client) (response : LoginResponse) : M value :=
  let unrecognized :=
    run call_errorHandler c (UnrecognizedResponse (login_data response));
    do tok <- this token;
    ret (VString tok) in
  match login_data response with
  | Some (mkLoginData (Some (mkAuthData (Some tok) lease))) =>
      if String.eqb tok "" then unrecognized
      else
        run assign (set_token tok);
        do now <- Date_now;
        run assign (set_tokenExpiresAt
                      (jsadd (Num now) (jsmul (to_number lease) (Num 1000))));
        do tok' <- this token;
        ret (VString tok')
  | _ => unrecognized
  end.

(** The body of the [try] block: the arguments of [post], left to right,
    then the call. *)
Definition login_call (w : World) (path role : string) : M LoginResponse :=
  do url <- this (fun v => login_url (baseUrl v));
  do contents <- readFileAsync w path;
  do agent <- getHttpsAgent w;
  let body := mkLoginBody contents role in
  await w (EvPost url body agent) (axios_post w url body agent).

(** The destructured parameters with their defaults. *)
Definition saTokenPath (w : World) (options : AuthOptions) : string :=
  default (defaults.getAuthServiceAccountPath w) (serviceAccountTokenPath options).

Definition saRole (w : World) (options : AuthOptions) : string :=
  default (defaults.getAuthRole w) (role options).

Definition kubernetes (w : World) (c : Client) (options : AuthOptions) : M value :=
  let path := saTokenPath w options in
  let role := saRole w options in
  if negb (existsSync w path) then throw (ServiceAccountTokenNotFound path)
  else
    do attempt <-
      try_catch
        (do response <- login_call w path role;
         ret (inl response))
        (fun e =>
           do url <- this (fun v => login_url (baseUrl v));
           run call_errorHandler c (TokenRefreshError url e);
           do tok <- this token;
           ret (inr (VString tok)));
    match attempt with
    | inr early => ret early
    | inl response => handle_response c response
    end.

(** The registry of built-in strategies: one own property. *)
Definition authMethods (w : World) (name : string)
  : option (Client -> AuthOptions -> M value) :=
  if String.eqb name "kubernetes" then Some (kubernetes w) else None.

(** ** The class *)

(** [this.auth], the closure built by the constructor. *)
Definition auth (w : World) (c : Client) : M value :=
  match authMethod c with
  | AuthFunction f => run emit EvAuth; f (authOptions c)
  | AuthName name =>
      match authMethods w name with
      | Some f => run emit EvAuth; f c (authOptions c)
      | None => throw (NotAFunction name)
      end
  end.

Definition getToken (w : World) (c : Client) : M value :=
  do expires <- this tokenExpiresAt;
  do now <- Date_now;
  if jsgt (jssub expires (Num tokenRenewalCliff)) (Num now)
  then do tok <- this token; ret (VString tok)
  else auth w c.

(** [Object.assign({ baseURL, method: "post", httpsAgent }, params)] *)
Definition with_defaults (base : string) (agent : Agent) (params : RequestParams)
  : RequestParams :=
  mkParams (Some (default base (p_baseURL params)))
           (p_url params)
           (Some (default "post" (p_method params)))
           (Some (default agent (p_httpsAgent params)))
           (p_data params)
           (p_headers params).

(** [Object.assign({ "X-Vault-Token": tok }, params.headers || {})]:
    the keys of the second object win. *)
Definition merge_headers (tok : value) (headers : option (gmap string value))
  : gmap string value :=
  default ∅ headers ∪ {[ "X-Vault-Token" := tok ]}.

Definition with_headers (h : gmap string value) (params : RequestParams)
  : RequestParams :=
  mkParams (p_baseURL params) (p_url params) (p_method params)
           (p_httpsAgent params) (p_data params) (Some h).

Definition request (w : World) (c : Client) (params : RequestParams) : M value :=
  do base <- this baseUrl;
  do agent <- getHttpsAgent w;
  let params1 := with_defaults base agent params in
  do tok <- getToken w c;
  let params2 := with_headers (merge_headers tok (p_headers params1)) params1 in
  try_catch
    (do response <- await w (EvRequest params2) (axios_request w params2);
     ret (response_data response))
    (fun e =>
       do tok' <- this token;
       call_errorHandler c (RequestError params2 e tok')).

(** ** The constructor *)

(** [s] without the prefix [p], when it starts with it. *)
Fixpoint strip_prefix (p s : string) : option string :=
  match p, s with
  | EmptyString, _ => Some s
  | String a p', String b s' =>
      if Ascii.eqb a b then strip_prefix p' s' else None
  | String _ _, EmptyString => None
  end.

(** [s.replace(/^https?:\/\//, '')] *)
Definition strip_scheme (s : string) : string :=
  match strip_prefix "https://" s with
  | Some rest => rest
  | None =>
      match strip_prefix "http://" s with
      | Some rest => rest
      | None => s
      end
  end.

(** [s.replace(/\/$/, '')]: a slash that ends the string goes. *)
Fixpoint strip_trailing_slash (s : string) : string :=
  match s with
  | EmptyString => EmptyString
  | String ch EmptyString => if Ascii.eqb ch "/" then EmptyString else s
  | String ch rest => String ch (strip_trailing_slash rest)
  end.

Definition normalize_baseUrl (url : string) : string :=
  "https://" +:+ strip_trailing_slash (strip_scheme url).

Definition thirtyOneDays : Z := 31 * 24 * 60 * 60 * 1000.

(** The constructor's argument; an absent field takes its default. *)
Record Config : Type := mkConfig {
  cfg_baseUrl : option string;
  cfg_sslCertPath : option string;
  cfg_errorHandler : option (Error -> Outcome value);
  cfg_ignoreSslCertCheck : option bool;
  cfg_token : option string;
  cfg_authMethod : option AuthMethod;
  cfg_authOptions : option AuthOptions
}.

(** The constructor's parameters after defaulting. *)
Definition resolved_baseUrl (w : World) (config : Config) : string :=
  default (defaults.getBaseUrl w) (cfg_baseUrl config).

Definition resolved_sslCertPath (w : World) (config : Config) : string :=
  default (defaults.getSslCertPath w) (cfg_sslCertPath config).

Definition resolved_ignoreSslCertCheck (w : World) (config : Config) : bool :=
  default (defaults.getIgnoreSslCertCheck w) (cfg_ignoreSslCertCheck config).

Definition resolved_token (w : World) (config : Config) : string :=
  default (defaults.getToken w) (cfg_token config).

Definition resolved_authMethod (w : World) (config : Config) : AuthMethod :=
  default (AuthName (defaults.getAuthMethod w)) (cfg_authMethod config).

Definition unsupported (w : World) (m : AuthMethod) : option string :=
  match m with
  | AuthName name =>
      match authMethods w name with
      | Some _ => None
      | None => Some name
      end
  | AuthFunction _ => None
  end.

(** [new ManageTeamVault(config)], run when the clock shows [now]. *)
Definition constructor (w : World) (config : Config) (now : Z)
  : Outcome (Client * Vault) :=
  let baseUrl := resolved_baseUrl w config in
  let sslCertPath := resolved_sslCertPath w config in
  let errorHandler := default defaults.getErrorHandler (cfg_errorHandler config) in
  let ignoreSslCertCheck := resolved_ignoreSslCertCheck w config in
  let token := resolved_token w config in
  let authMethod := resolved_authMethod w config in
  let authOptions := default (mkAuthOptions None None) (cfg_authOptions config) in
  match unsupported w authMethod with
  | Some name => Throw (UnsupportedAuthMethod name)
  | None =>
      if negb (existsSync w sslCertPath) && negb ignoreSslCertCheck
      then Throw (SslCertNotFound sslCertPath)
      else if String.eqb baseUrl ""
      then Throw (InvalidBaseUrl baseUrl)
      else
        Return
          (mkClient authMethod authOptions errorHandler,
           mkVault (normalize_baseUrl baseUrl)
                   sslCertPath
                   ignoreSslCertCheck
                   None
                   (or_else (Some token) "")
                   (if truthy (Some token) then Num (now + thirtyOneDays) else Num 0))
  end.

Definition set_cfg_token (o : option string) (config : Config) : Config :=
  mkConfig (cfg_baseUrl config) (cfg_sslCertPath config) (cfg_errorHandler config)
           (cfg_ignoreSslCertCheck config) o (cfg_authMethod config)
           (cfg_authOptions config).

Definition set_cfg_errorHandler (h : option (Error -> Outcome value))
    (config : Config) : Config :=
  mkConfig (cfg_baseUrl config) (cfg_sslCertPath config) h
           (cfg_ignoreSslCertCheck config) (cfg_token config)
           (cfg_authMethod config) (cfg_authOptions config).

(** ** Observations on runs *)

(** The strategy [this.auth] would call, when there is one. *)
Definition strategy (w : World) (c : Client) : option (M value) :=
  match authMethod c with
  | AuthFunction f => Some (f (authOptions c))
  | AuthName name =>
      match authMethods w name with
      | Some f => Some (f c (authOptions c))
      | None => None
      end
  end.

Definition is_auth_call (ev : Event) : bool :=
  match ev with EvAuth => true | _ => false end.

Definition is_handler_call (ev : Event) : bool :=
  match ev with EvErrorHandler _ => true | _ => false end.

Definition count (p : Event -> bool) (tr : list Event) : nat :=
  length (filter (fun ev => p ev = true) tr).

(** The cached token is still good: the expiry is a number more than the
    renewal cliff ahead of the clock. *)
Definition fresh (v : Vault) (t : Z) : Prop :=
  exists expiry, tokenExpiresAt v = Num expiry /\ expiry - t > 30 * 1000.

(** A cache hit: the stored token comes back, nothing else happens. *)
Definition cache_hit (v : Vault) (t : Z) : Run value :=
  mkRun (Return (VString (token v))) v t [].

(** [client_token] of a response, through whatever levels are present. *)
Definition response_token (response : LoginResponse) : option string :=
  match login_data response with
  | Some d => match data_auth d with
              | Some a => client_token a
              | None => None
              end
  | None => None
  end.

Definition response_lease (response : LoginResponse) : option Z :=
  match login_data response with
  | Some d => match data_auth d with
              | Some a => lease_duration a
              | None => None
              end
  | None => None
  end.

(** The fields the login protocol cares about are the same in [v']. *)
Definition same_login_state (v v' : Vault) : Prop :=
  baseUrl v' = baseUrl v
  /\ token v' = token v
  /\ tokenExpiresAt v' = tokenExpiresAt v.

(** A trace without strategy calls and without error-handler calls. *)
Definition quiet (tr : list Event) : Prop :=
  count is_auth_call tr = 0%nat /\ count is_handler_call tr = 0%nat.

(** How a failed login ends once the policy has seen [err]: what the
    policy throws is thrown on, and when it returns, its value is dropped
    and the stored token is the result. *)
Definition after_policy (c : Client) (err : Error) (v : Vault) : Outcome value :=
  match errorHandler c err with
  | Return _ => Return (VString (token v))
  | Throw e => Throw e
  end.

(** The two ways a login fails inside the strategy, with the error each
    hands to the policy: the [try] block threw [e], or the response came
    back without a usable [client_token]. *)
Definition login_failure (r0 : Run LoginResponse) (v : Vault) (err : Error) : Prop :=
  match outcome r0 with
  | Throw e => err = TokenRefreshError (login_url (baseUrl v)) e
  | Return response =>
      truthy (response_token response) = false
      /\ err = UnrecognizedResponse (login_data response)
  end.

(** A computation that never changes [this.baseUrl]. *)
Definition keeps_baseUrl {A} (m : M A) : Prop :=
  forall v t, baseUrl (vault (m v t)) = baseUrl v.

(** The constructor's input is a configuration error: the auth method is
    a string that names no built-in strategy, or the CA certificate file
    is missing and the check is not switched off, or the base URL is
    empty. *)
Definition config_error (w : World) (config : Config) : Prop :=
  (exists name, resolved_authMethod w config = AuthName name
                /\ name <> "kubernetes")
  \/ (existsSync w (resolved_sslCertPath w config) = false
      /\ resolved_ignoreSslCertCheck w config = false)
  \/ resolved_baseUrl w config = "".

Definition is_config_error (e : Error) : Prop :=
  match e with
  | UnsupportedAuthMethod _ | SslCertNotFound _ | InvalidBaseUrl _ => True
  | _ => False
  end.

(** The fields a successful construction leaves. *)
Definition vault_of (o : Outcome (Client * Vault)) : option Vault :=
  match o with
  | Return (_, v) => Some v
  | Throw _ => None
  end.

(** Construct when the clock shows [now], then call [getToken] at [t]. *)
Definition construct_then_getToken (w : World) (config : Config) (now t : Z)
  : option (Run value) :=
  match constructor w config now with
  | Return (c, v) => Some (getToken w c v t)
  | Throw _ => None
  end.

(** What a method call leaves in the fields. *)
Inductive Call : Type :=
| CallGetToken
| CallRequest (params : RequestParams)
| CallGetHttpsAgent
| CallAuth.

Definition after_call (c : Client) (v : Vault) (step : World * Call * Z) : Vault :=
  match step with
  | (w, CallGetToken, t) => vault (getToken w c v t)
  | (w, CallRequest params, t) => vault (request w c params v t)
  | (w, CallGetHttpsAgent, t) => vault (getHttpsAgent w v t)
  | (w, CallAuth, t) => vault (auth w c v t)
  end.

Definition after_calls (c : Client) (v : Vault) (steps : list (World * Call * Z))
  : Vault :=
  fold_left (after_call c) steps v.

(** ** Sample collaborators, for concrete runs *)

Definition no_env : string -> option string := fun _ => None.

Definition sample_response : LoginResponse :=
  mkLoginResponse (Some (mkLoginData (Some (mkAuthData (Some "tok-1") (Some 3600))))).

(** Every file exists and reads as "jwt-abc"; the login answers
    [sample_response] after 5 ms; data requests answer a fixed body. *)
Definition sample_world : World :=
  mkWorld no_env
          (fun _ => true)
          (fun _ => Resolve "jwt-abc")
          (fun _ _ _ => Resolve sample_response)
          (fun _ => Resolve (mkResponse (VJson "{}")))
          (fun ev => match ev with EvPost _ _ _ => 5%N | _ => 0%N end).

Definition with_post (w : World)
    (post : string -> LoginBody -> Agent -> IoResult LoginResponse) : World :=
  mkWorld (process_env w) (existsSync w) (readFile w) post
          (axios_request w) (elapsed w).

Definition with_env (w : World) (env : string -> option string) : World :=
  mkWorld env (existsSync w) (readFile w) (axios_post w)
          (axios_request w) (elapsed w).

Definition with_files (w : World) (ex : string -> bool) : World :=
  mkWorld (process_env w) ex (readFile w) (axios_post w)
          (axios_request w) (elapsed w).

Definition sample_vault : Vault :=
  mkVault "https://vault:8200/v1" "/ca.crt" true None "stale" (Num 0).

Definition sample_client (h : Error -> Outcome value) : Client :=
  mkClient (AuthName "kubernetes") (mkAuthOptions None None) h.

Definition empty_config : Config :=
  mkConfig None None None None None None None.

Definition no_options : AuthOptions := mkAuthOptions None None.

(** A policy that swallows the error and answers a fixed value. *)
Definition returning_handler : Error -> Outcome value :=
  fun _ => Return (VString "fallback").

(** [{ auth: { client_token: (empty string), lease_duration: 10 } }] *)
Definition empty_token_response : LoginResponse :=
  mkLoginResponse (Some (mkLoginData (Some (mkAuthData (Some "") (Some 10))))).

(** [{ auth: { client_token: "tok-2" } }] *)
Definition no_lease_response : LoginResponse :=
  mkLoginResponse (Some (mkLoginData (Some (mkAuthData (Some "tok-2") None)))).

(** [{}] *)
Definition no_auth_response : LoginResponse :=
  mkLoginResponse (Some (mkLoginData None)).

Definition forbidden : IoError :=
  mkIoError "Request failed with status code 403" (Some "permission denied").

Definition answering (response : LoginResponse) : World :=
  with_post sample_world (fun _ _ _ => Resolve response).

Definition refusing : World :=
  with_post sample_world (fun _ _ _ => Reject forbidden).

Definition env_with_token : string -> option string :=
  fun name => if String.eqb name "VAULT_TOKEN" then Some "abc" else None.

(** A caller-supplied strategy: it stores and returns a fixed token. *)
Definition custom_strategy : AuthOptions -> M value :=
  fun _ => run assign (set_token "custom"); ret (VString "custom").

Definition custom_config : Config :=
  mkConfig (Some "https://vault:8200/v1/") None None (Some true) None
           (Some (AuthFunction custom_strategy)) None.

Definition custom_client : Client :=
  mkClient (AuthFunction custom_strategy) no_options defaults.getErrorHandler.

Definition get_secret : RequestParams :=
  mkParams None (Some "/secret/data/x") (Some "get") None None None.

Definition get_secret_with_header : RequestParams :=
  mkParams None (Some "/secret/data/x") (Some "get") None None
           (Some {[ "X-Vault-Token" := VString "mine" ]}).

Definition static_config (tok : string) : Config :=
  mkConfig (Some "http://vault:8200/v1/") None None (Some true) (Some tok) None None.

(** What [new ManageTeamVault(static_config tok)] builds at time 1000. *)
Definition static_client : Client :=
  mkClient (AuthName "kubernetes") no_options defaults.getErrorHandler.

Definition static_vault (tok : string) (expiry : Z) : Vault :=
  mkVault "https://vault:8200/v1" "/var/run/secrets/vault/ca.crt" true None
          tok (Num expiry).

(** ** Further observations and samples *)

Definition is_read_file (ev : Event) : bool :=
  match ev with EvReadFile _ => true | _ => false end.

Definition is_post (ev : Event) : bool :=
  match ev with EvPost _ _ _ => true | _ => false end.

Definition is_data_request (ev : Event) : bool :=
  match ev with EvRequest _ => true | _ => false end.

(** A computation under which the property [P] of the fields, once it
    holds, holds afterwards. *)
Definition preserves {A} (P : Vault -> Prop) (m : M A) : Prop :=
  forall v t, P v -> P (vault (m v t)).

(** The parameters [request] hands to axios, given the agent in use and
    the token [getToken] returned. *)
Definition outgoing (base : string) (agent : Agent) (tok : value)
    (params : RequestParams) : RequestParams :=
  with_headers (merge_headers tok (p_headers params))
               (with_defaults base agent params).

Definition set_cfg_baseUrl (o : option string) (config : Config) : Config :=
  mkConfig o (cfg_sslCertPath config) (cfg_errorHandler config)
           (cfg_ignoreSslCertCheck config) (cfg_token config)
           (cfg_authMethod config) (cfg_authOptions config).

Definition with_readFile (w : World) (rd : string -> IoResult string) : World :=
  mkWorld (process_env w) (existsSync w) rd (axios_post w)
          (axios_request w) (elapsed w).

Definition with_request (w : World)
    (rq : RequestParams -> IoResult Response) : World :=
  mkWorld (process_env w) (existsSync w) (readFile w) (axios_post w)
          rq (elapsed w).

Definition denied : IoError := mkIoError "EACCES: permission denied" None.

(** Files exist but cannot be read. *)
Definition unreadable : World :=
  with_readFile sample_world (fun _ => Reject denied).

(** Data requests are refused; logins succeed. *)
Definition refusing_data : World :=
  with_request sample_world (fun _ => Reject forbidden).

(** A client that checks certificates and has no agent yet. *)
Definition checking_vault : Vault :=
  mkVault "https://vault:8200/v1" "/ca.crt" false None "stale" (Num 0).

(** [{ auth: { client_token: "tok-3", lease_duration: 20 } }] *)
Definition short_lease_response : LoginResponse :=
  mkLoginResponse (Some (mkLoginData (Some (mkAuthData (Some "tok-3") (Some 20))))).

(** A property of the fields that neither a token update nor the first
    storing of an agent can break. *)
Definition stable_under_login (P : Vault -> Prop) : Prop :=
  (forall v s, P v -> P (set_token s v))
  /\ (forall v n, P v -> P (set_tokenExpiresAt n v))
  /\ (forall v a, P v -> httpsAgent v = None -> P (set_httpsAgent (Some a) v)).

(** The environment names a local or test run. *)
Definition local_or_test (w : World) : Prop :=
  process_env w "APP__ENV_NAME" = Some "local"
  \/ process_env w "APP__ENV_NAME" = Some "test".

Definition local_env : string -> option string :=
  fun name => if String.eqb name "APP__ENV_NAME" then Some "local" else None.

(** A local run in which no file exists. *)
Definition local_world : World :=
  with_files (with_env sample_world local_env) (fun _ => false).

Definition plain_config : Config :=
  mkConfig (Some "vault:8200/v1") None None None None None None.

(** [s] ends with a slash. *)
Fixpoint ends_with_slash (s : string) : bool :=
  match s with
  | EmptyString => false
  | String ch EmptyString => Ascii.eqb ch "/"
  | String _ rest => ends_with_slash rest
  end.

(** Integers that doubles hold exactly, sums and products included:
    up to [Number.MAX_SAFE_INTEGER] in size. *)
Definition safe_integer (z : Z) : Prop :=
  - (2 ^ 53 - 1) <= z <= 2 ^ 53 - 1.

(** The double nearest to the integer [z], ties to the even significand
    (53 bits), for [z] below the overflow threshold of doubles: what a
    sum or product of doubles with exact value [z] evaluates to. *)
Definition to_double (z : Z) : Z :=
  let m := Z.abs z in
  let e := Z.log2 m in
  if Z.leb e 52 then z
  else
    let s := e - 52 in
    let q := Z.shiftr m s in
    let rest := m - Z.shiftl q s in
    let half := Z.shiftl 1 (s - 1) in
    let q' := if Z.ltb half rest || (Z.eqb rest half && Z.odd q)
              then q + 1 else q in
    Z.sgn z * Z.shiftl q' s.

(** A caller-supplied strategy that fails. *)
Definition throwing_strategy : AuthOptions -> M value :=
  fun _ => throw (UserError "no credentials").

Definition throwing_client (h : Error -> Outcome value) : Client :=
  mkClient (AuthFunction throwing_strategy) no_options h.

(** * Properties *)

(** ** Basic facts about the monad and the cache test *)

Lemma jsgt_fresh (v : Vault) (t : Z) :
  jsgt (jssub (tokenExpiresAt v) (Num tokenRenewalCliff)) (Num t) = true
  <-> fresh v t.
Proof.
  unfold fresh, tokenRenewalCliff.
  destruct (tokenExpiresAt v) as [|e]; simpl.
  - split; [discriminate | intros (x & Hx & _); discriminate].
  - rewrite Z.ltb_lt. split.
    + intros H. exists e. split; [reflexivity | lia].
    + intros (x & Hx & Hgt). injection Hx as ->. lia.
Qed.

Lemma getToken_hit (w : World) (c : Client) (v : Vault) (t : Z) :
  fresh v t -> getToken w c v t = cache_hit v t.
Proof.
  intros H. apply jsgt_fresh in H.
  unfold getToken, bind, this, Date_now, ret, cache_hit. simpl.
  rewrite H. reflexivity.
Qed.

Lemma run_eta {A} (r : Run A) :
  mkRun (outcome r) (vault r) (clock r) (trace r) = r.
Proof. destruct r; reflexivity. Qed.

Lemma getToken_miss (w : World) (c : Client) (v : Vault) (t : Z) :
  ~ fresh v t -> getToken w c v t = auth w c v t.
Proof.
  intros H.
  assert (Hb : jsgt (jssub (tokenExpiresAt v) (Num tokenRenewalCliff)) (Num t) = false).
  { destruct (jsgt _ _) eqn:E; [|reflexivity].
    exfalso. apply H, jsgt_fresh, E. }
  unfold getToken, bind, this, Date_now. simpl.
  rewrite Hb. destruct (auth w c v t); reflexivity.
Qed.

(** [this.auth] with a strategy at hand: the call is recorded, then the
    strategy runs from the same fields and clock. *)
Lemma auth_strategy (w : World) (c : Client) (s : M value) (v : Vault) (t : Z) :
  strategy w c = Some s ->
  auth w c v t =
  mkRun (outcome (s v t)) (vault (s v t)) (clock (s v t)) (EvAuth :: trace (s v t)).
Proof.
  unfold strategy, auth. intros H.
  destruct (authMethod c) as [name|f].
  - destruct (authMethods w name) as [f|]; [|discriminate].
    injection H as <-.
    unfold bind, emit. simpl.
    destruct (f c (authOptions c) v t); reflexivity.
  - injection H as <-.
    unfold bind, emit. simpl.
    destruct (f (authOptions c) v t); reflexivity.
Qed.

Lemma auth_not_hit (w : World) (c : Client) (v : Vault) (t : Z) :
  auth w c v t <> cache_hit v t.
Proof.
  destruct (strategy w c) as [s|] eqn:E.
  - rewrite (auth_strategy w c s v t E). unfold cache_hit. intros H.
    apply (f_equal trace) in H. simpl in H. discriminate.
  - unfold strategy in E. unfold auth, cache_hit.
    destruct (authMethod c) as [name|f]; [|discriminate].
    destruct (authMethods w name); [discriminate|].
    unfold throw. intros H. apply (f_equal outcome) in H. discriminate.
Qed.

(** ** The Kubernetes strategy, path by path *)

Lemma count_app (p : Event -> bool) (l1 l2 : list Event) :
  count p (l1 ++ l2) = (count p l1 + count p l2)%nat.
Proof.
  unfold count. induction l1 as [|ev l1 IH]; simpl; [reflexivity|].
  rewrite !filter_cons. destruct (decide (p ev = true)); simpl; lia.
Qed.

Lemma count_cons (p : Event -> bool) (ev : Event) (l : list Event) :
  count p (ev :: l) = ((if p ev then 1 else 0) + count p l)%nat.
Proof.
  unfold count. rewrite filter_cons.
  destruct (p ev); destruct (decide _); simpl; congruence.
Qed.

Lemma getHttpsAgent_keeps (w : World) (v : Vault) (t : Z) :
  same_login_state v (vault (getHttpsAgent w v t))
  /\ quiet (trace (getHttpsAgent w v t))
  /\ count is_network_call (trace (getHttpsAgent w v t)) = 0%nat.
Proof.
  unfold same_login_state, quiet.
  destruct v as [base cert ignore [agent|] tok expiry];
    [cbv; repeat split|].
  destruct ignore; [cbv; repeat split|].
  cbv [getHttpsAgent bind this ret assign readFileAsync await
       httpsAgent ignoreSslCertCheck sslCertPath outcome vault clock trace].
  destruct (readFile w cert); cbv; repeat split.
Qed.

Lemma login_call_keeps (w : World) (path role : string) (v : Vault) (t : Z) :
  same_login_state v (vault (login_call w path role v t))
  /\ quiet (trace (login_call w path role v t)).
Proof.
  pose (t1 := t + Z.of_N (elapsed w (EvReadFile path))).
  destruct (getHttpsAgent_keeps w v t1) as ((Hb & Ht & He) & (Ha & Hh) & _).
  unfold login_call, bind, this, readFileAsync, await, same_login_state, quiet
    in *. cbn -[count getHttpsAgent].
  destruct (readFile w path) as [contents|e]; cbn -[count getHttpsAgent];
    [|repeat split].
  fold t1.
  destruct (getHttpsAgent w v t1) as [[agent|e] v1 t1' tr1];
    cbn -[count] in *;
    rewrite ?count_cons, ?count_app, ?count_cons, ?Ha, ?Hh;
    repeat split; assumption.
Qed.

Lemma kubernetes_missing_file (w : World) (c : Client) (options : AuthOptions)
    (v : Vault) (t : Z) :
  existsSync w (saTokenPath w options) = false ->
  kubernetes w c options v t =
  mkRun (Throw (ServiceAccountTokenNotFound (saTokenPath w options))) v t [].
Proof.
  intros H. unfold kubernetes. rewrite H. reflexivity.
Qed.

Lemma kubernetes_rejected (w : World) (c : Client) (options : AuthOptions)
    (v : Vault) (t : Z) (e : Error) :
  existsSync w (saTokenPath w options) = true ->
  let r0 := login_call w (saTokenPath w options) (saRole w options) v t in
  outcome r0 = Throw e ->
  let err := TokenRefreshError (login_url (baseUrl v)) e in
  kubernetes w c options v t =
  mkRun (after_policy c err v) (vault r0) (clock r0)
        (trace r0 ++ [EvErrorHandler err]).
Proof.
  intros Hex r0 Hout err.
  destruct (login_call_keeps w (saTokenPath w options) (saRole w options) v t)
    as ((Hb & Ht & _) & _).
  fold r0 in Hb, Ht.
  unfold kubernetes. rewrite Hex. cbn [negb].
  subst err. revert Hb Ht Hout. subst r0.
  generalize (login_call w (saTokenPath w options) (saRole w options)).
  intros lc. destruct (lc v t) as [o v0 t0 tr0] eqn:E.
  cbn [outcome vault clock trace]. intros Hb Ht ->.
  cbv [bind try_catch this call_errorHandler ret after_policy].
  rewrite E. cbn [outcome vault clock trace app]. rewrite Hb, Ht.
  destruct (errorHandler c _); rewrite ?app_nil_r; reflexivity.
Qed.

Lemma kubernetes_resolved (w : World) (c : Client) (options : AuthOptions)
    (v : Vault) (t : Z) (response : LoginResponse) :
  existsSync w (saTokenPath w options) = true ->
  let r0 := login_call w (saTokenPath w options) (saRole w options) v t in
  outcome r0 = Return response ->
  let r1 := handle_response c response (vault r0) (clock r0) in
  kubernetes w c options v t =
  mkRun (outcome r1) (vault r1) (clock r1) (trace r0 ++ trace r1).
Proof.
  intros Hex r0 Hout r1.
  unfold kubernetes. rewrite Hex. cbn [negb].
  subst r1. revert Hout. subst r0.
  generalize (login_call w (saTokenPath w options) (saRole w options)).
  intros lc. destruct (lc v t) as [o v0 t0 tr0] eqn:E.
  cbn [outcome vault clock trace]. intros ->.
  cbv [bind try_catch ret]. rewrite E. rewrite app_nil_r.
  destruct (handle_response c response v0 t0); reflexivity.
Qed.

Lemma handle_response_recognized (c : Client) (response : LoginResponse)
    (tok : string) (v : Vault) (t : Z) :
  response_token response = Some tok ->
  tok <> "" ->
  handle_response c response v t =
  mkRun (Return (VString tok))
        (set_tokenExpiresAt
           (jsadd (Num t) (jsmul (to_number (response_lease response)) (Num 1000)))
           (set_token tok v))
        t [].
Proof.
  unfold response_token, response_lease, handle_response.
  destruct (login_data response) as [[[[[tok'|] lease]|]]|]; try discriminate.
  intros [= ->] Hne.
  destruct (String.eqb tok "") eqn:E.
  - apply String.eqb_eq in E. contradiction.
  - reflexivity.
Qed.

Lemma handle_response_unrecognized (c : Client) (response : LoginResponse)
    (v : Vault) (t : Z) :
  truthy (response_token response) = false ->
  let err := UnrecognizedResponse (login_data response) in
  handle_response c response v t =
  mkRun (after_policy c err v) v t [EvErrorHandler err].
Proof.
  intros H err. subst err. revert H.
  unfold response_token, handle_response, truthy.
  generalize (login_data response). intros d H.
  assert (Hbad :
    (run call_errorHandler c (UnrecognizedResponse d);
     do tok <- this token; ret (VString tok)) v t =
    mkRun (after_policy c (UnrecognizedResponse d) v) v t
          [EvErrorHandler (UnrecognizedResponse d)]).
  { unfold bind, call_errorHandler, this, ret, after_policy. simpl.
    destruct (errorHandler c _); reflexivity. }
  destruct d as [[[[[tok'|] lease]|]]|]; try exact Hbad.
  simpl in H. destruct (String.eqb tok' ""); [exact Hbad | discriminate].
Qed.

Lemma handle_response_no_auth_call (c : Client) (response : LoginResponse)
    (v : Vault) (t : Z) :
  count is_auth_call (trace (handle_response c response v t)) = 0%nat.
Proof.
  destruct (truthy (response_token response)) eqn:E.
  - unfold truthy in E.
    destruct (response_token response) as [tok|] eqn:Et; [|discriminate].
    rewrite (handle_response_recognized c response tok v t Et).
    + reflexivity.
    + intros ->. discriminate.
  - rewrite (handle_response_unrecognized c response v t E). reflexivity.
Qed.

Lemma kubernetes_no_auth_call (w : World) (c : Client) (options : AuthOptions)
    (v : Vault) (t : Z) :
  count is_auth_call (trace (kubernetes w c options v t)) = 0%nat.
Proof.
  destruct (existsSync w (saTokenPath w options)) eqn:Hex.
  - destruct (login_call_keeps w (saTokenPath w options) (saRole w options) v t)
      as (_ & Hq & _).
    destruct (outcome (login_call w (saTokenPath w options) (saRole w options) v t))
      as [response|e] eqn:Hout.
    + rewrite (kubernetes_resolved w c options v t response Hex Hout).
      cbn [trace]. rewrite count_app, Hq, handle_response_no_auth_call.
      reflexivity.
    + rewrite (kubernetes_rejected w c options v t e Hex Hout).
      cbn [trace]. rewrite count_app, Hq. reflexivity.
  - rewrite (kubernetes_missing_file w c options v t Hex). reflexivity.
Qed.

(** ** The token cache *)

(** C1. [getToken] answers from the cache, calling neither the strategy
    nor the network and changing nothing, exactly when the stored expiry
    lies more than the 30 s renewal cliff ahead of the clock.  In every
    other state, among them the initial one with expiry 0, it calls the
    configured strategy once, from the same fields and clock, and its
    outcome, fields and clock are the strategy's; with the built-in
    strategy the trace holds exactly one strategy call. *)
Theorem getToken_cache_iff_fresh (w : World) (c : Client) (v : Vault) (t : Z) :
  (fresh v t <-> getToken w c v t = cache_hit v t)
  /\ (fresh v t ->
      count is_auth_call (trace (getToken w c v t)) = 0%nat
      /\ count is_network_call (trace (getToken w c v t)) = 0%nat)
  /\ (~ fresh v t ->
      forall s, strategy w c = Some s ->
        outcome (getToken w c v t) = outcome (s v t)
        /\ vault (getToken w c v t) = vault (s v t)
        /\ clock (getToken w c v t) = clock (s v t)
        /\ trace (getToken w c v t) = EvAuth :: trace (s v t))
  /\ (~ fresh v t -> authMethod c = AuthName "kubernetes" ->
      count is_auth_call (trace (getToken w c v t)) = 1%nat)
  /\ (tokenExpiresAt v = Num 0 -> 0 <= t -> ~ fresh v t).
Proof.
  split; [split|split; [|split; [|split]]].
  - apply getToken_hit.
  - intros H.
    destruct (jsgt (jssub (tokenExpiresAt v) (Num tokenRenewalCliff)) (Num t)) eqn:E.
    + apply jsgt_fresh, E.
    + exfalso. assert (Hn : ~ fresh v t).
      { intros Hf. apply jsgt_fresh in Hf. congruence. }
      rewrite (getToken_miss w c v t Hn) in H.
      exact (auth_not_hit w c v t H).
  - intros H. rewrite (getToken_hit w c v t H). split; reflexivity.
  - intros H s Hs.
    rewrite (getToken_miss w c v t H), (auth_strategy w c s v t Hs).
    repeat split.
  - intros H Hm.
    assert (Hs : strategy w c = Some (kubernetes w c (authOptions c))).
    { unfold strategy. rewrite Hm. reflexivity. }
    rewrite (getToken_miss w c v t H), (auth_strategy w c _ v t Hs).
    cbn [trace]. rewrite count_cons, kubernetes_no_auth_call. reflexivity.
  - intros H Ht (e & He & Hgt). rewrite H in He. injection He as <-. lia.
Qed.

(** ** Claims about the strategy *)

(** Inside the safe range the rounding of doubles changes nothing. *)
Lemma to_double_safe (z : Z) : safe_integer z -> to_double z = z.
Proof.
  unfold safe_integer, to_double. intros H.
  assert (Hm : Z.abs z < 2 ^ 53) by lia.
  assert (He : Z.log2 (Z.abs z) < 53).
  { destruct (Z.eq_dec (Z.abs z) 0) as [E|E]; [rewrite E; reflexivity|].
    apply Z.log2_lt_pow2; lia. }
  replace (Z.leb (Z.log2 (Z.abs z)) 52) with true; [reflexivity|].
  symmetry. apply Z.leb_le. lia.
Qed.

(** C2, as amended.  When the login call answers with a response that
    carries a non-empty [auth.client_token] and an [auth.lease_duration],
    and the clock reading, the lease in milliseconds and their sum are
    safe integers, the strategy stores the returned token, stores as
    expiry the clock reading taken when the response is handled plus
    [lease_duration * 1000] milliseconds (the value the doubles of the
    source give), calls no error handler and returns the stored token. *)
Theorem login_response_updates_token (w : World) (c : Client)
    (options : AuthOptions) (v : Vault) (t : Z)
    (response : LoginResponse) (tok : string) (lease : Z) :
  existsSync w (saTokenPath w options) = true ->
  outcome (login_call w (saTokenPath w options) (saRole w options) v t)
    = Return response ->
  response_token response = Some tok ->
  tok <> "" ->
  response_lease response = Some lease ->
  let now := clock (login_call w (saTokenPath w options) (saRole w options) v t) in
  safe_integer now ->
  safe_integer (lease * 1000) ->
  safe_integer (now + lease * 1000) ->
  let r := kubernetes w c options v t in
  outcome r = Return (VString tok)
  /\ token (vault r) = tok
  /\ tokenExpiresAt (vault r) = Num (clock r + lease * 1000)
  /\ tokenExpiresAt (vault r)
     = Num (to_double (clock r + to_double (lease * 1000)))
  /\ clock r = now
  /\ count is_handler_call (trace r) = 0%nat.
Proof.
  intros Hex Hout Htok Hne Hlease now Hnow Hms Hsum r. subst r now.
  destruct (login_call_keeps w (saTokenPath w options) (saRole w options) v t)
    as (_ & _ & Hquiet).
  rewrite (kubernetes_resolved w c options v t response Hex Hout).
  rewrite (handle_response_recognized c response tok _ _ Htok Hne).
  rewrite Hlease. cbn [outcome vault clock trace to_number jsmul jsadd].
  rewrite app_nil_r.
  rewrite (to_double_safe _ Hms), (to_double_safe _ Hsum).
  repeat split. exact Hquiet.
Qed.

Lemma login_response_updates_token_witness :
  let r := kubernetes sample_world (sample_client defaults.getErrorHandler)
             no_options sample_vault 1000 in
  outcome r = Return (VString "tok-1")
  /\ token (vault r) = "tok-1"
  /\ tokenExpiresAt (vault r) = Num (clock r + 3600 * 1000)
  /\ tokenExpiresAt (vault r)
     = Num (to_double (clock r + to_double (3600 * 1000)))
  /\ clock r = clock (login_call sample_world
                        (saTokenPath sample_world no_options)
                        (saRole sample_world no_options) sample_vault 1000)
  /\ count is_handler_call (trace r) = 0%nat.
Proof.
  apply (login_response_updates_token sample_world
           (sample_client defaults.getErrorHandler) no_options sample_vault 1000
           sample_response "tok-1" 3600);
    [reflexivity | reflexivity | reflexivity | discriminate | reflexivity
    | split; vm_compute; discriminate
    | split; vm_compute; discriminate
    | split; vm_compute; discriminate].
Defined.

(** C2, as stated, fails in three ways.  A response carrying both fields
    with an empty [client_token] is turned down by the guard: token and
    expiry stay as they were.  The expiry counts from the moment the
    response is handled: with a login that takes 5 ms it lies 5 ms after
    the time of the call plus the lease.  And the sum of line 70 is a sum
    of doubles: at clock reading 1005 with a lease of 9007199254740
    seconds it is 9007199254741004, one less than the clock reading plus
    the lease in milliseconds. *)
Lemma login_response_not_always_stored :
  (let w := answering empty_token_response in
   let r := kubernetes w (sample_client returning_handler) no_options
              sample_vault 1000 in
   outcome (login_call w (saTokenPath w no_options) (saRole w no_options)
              sample_vault 1000) = Return empty_token_response
   /\ response_token empty_token_response = Some ""
   /\ response_lease empty_token_response = Some 10
   /\ token (vault r) = "stale"
   /\ token (vault r) <> ""
   /\ tokenExpiresAt (vault r) = Num 0
   /\ tokenExpiresAt (vault r) <> Num (clock r + 10 * 1000)
   /\ count is_handler_call (trace r) = 1%nat)
  /\
  (let r := kubernetes sample_world (sample_client returning_handler) no_options
              sample_vault 1000 in
   response_lease sample_response = Some 3600
   /\ tokenExpiresAt (vault r) = Num (1005 + 3600 * 1000)
   /\ tokenExpiresAt (vault r) <> Num (1000 + 3600 * 1000))
  /\
  (to_double (9007199254740 * 1000) = 9007199254740 * 1000
   /\ to_double (1005 + to_double (9007199254740 * 1000)) = 9007199254741004
   /\ to_double (1005 + to_double (9007199254740 * 1000))
      <> 1005 + 9007199254740 * 1000
   /\ ~ safe_integer (1005 + 9007199254740 * 1000)).
Proof.
  split; [|split]; cbv zeta; repeat split; try reflexivity;
    try (vm_compute; discriminate).
  intros (_ & H). vm_compute in H. apply H. reflexivity.
Qed.

(** C4.  When the file at [serviceAccountTokenPath] does not exist, the
    strategy throws at once: its run ends with the file-not-found error,
    no time has passed, nothing was read, posted or handed to the error
    handler, and the fields are untouched.  Through [getToken] the same
    error comes out, whatever the policy is. *)
Theorem missing_credential_file_throws (w : World) (c : Client)
    (options : AuthOptions) (v : Vault) (t : Z) :
  existsSync w (saTokenPath w options) = false ->
  let r := kubernetes w c options v t in
  outcome r = Throw (ServiceAccountTokenNotFound (saTokenPath w options))
  /\ trace r = []
  /\ count is_network_call (trace r) = 0%nat
  /\ count is_handler_call (trace r) = 0%nat
  /\ vault r = v
  /\ clock r = t
  /\ (authMethod c = AuthName "kubernetes" -> authOptions c = options ->
      ~ fresh v t ->
      outcome (getToken w c v t)
        = Throw (ServiceAccountTokenNotFound (saTokenPath w options))
      /\ trace (getToken w c v t) = [EvAuth]).
Proof.
  intros Hex r. subst r.
  rewrite (kubernetes_missing_file w c options v t Hex).
  cbn [outcome vault clock trace].
  do 6 (split; [reflexivity|]).
  intros Hm Ho Hstale.
  assert (Hs : strategy w c = Some (kubernetes w c options)).
  { unfold strategy. rewrite Hm, Ho. reflexivity. }
  rewrite (getToken_miss w c v t Hstale).
  rewrite (auth_strategy w c (kubernetes w c options) v t Hs).
  rewrite (kubernetes_missing_file w c options v t Hex).
  split; reflexivity.
Qed.

Lemma missing_credential_file_throws_witness :
  let w := with_files sample_world (fun _ => false) in
  let r := kubernetes w (sample_client returning_handler) no_options
             sample_vault 1000 in
  outcome r = Throw (ServiceAccountTokenNotFound
                       "/var/run/secrets/kubernetes.io/serviceaccount/token")
  /\ trace r = []
  /\ count is_network_call (trace r) = 0%nat
  /\ count is_handler_call (trace r) = 0%nat
  /\ vault r = sample_vault
  /\ clock r = 1000.
Proof.
  destruct (missing_credential_file_throws
              (with_files sample_world (fun _ => false))
              (sample_client returning_handler) no_options sample_vault 1000
              eq_refl) as (H1 & H2 & H3 & H4 & H5 & H6 & _).
  repeat split; assumption.
Defined.

Lemma truthy_false (o : option string) :
  truthy o = false <-> o = None \/ o = Some "".
Proof.
  unfold truthy. destruct o as [s|].
  - destruct (String.eqb s "") eqn:E; simpl.
    + apply String.eqb_eq in E. subst s. split; [right; reflexivity | reflexivity].
    + split; [discriminate|]. intros [H|H]; [discriminate|].
      injection H as ->. discriminate.
  - split; [left; reflexivity | reflexivity].
Qed.

(** A failed login, of either kind, as the strategy ends it. *)
Lemma kubernetes_failure (w : World) (c : Client) (options : AuthOptions)
    (v : Vault) (t : Z) (err : Error) :
  existsSync w (saTokenPath w options) = true ->
  let r0 := login_call w (saTokenPath w options) (saRole w options) v t in
  login_failure r0 v err ->
  kubernetes w c options v t =
  mkRun (after_policy c err v) (vault r0) (clock r0)
        (trace r0 ++ [EvErrorHandler err]).
Proof.
  intros Hex r0 Hfail. unfold login_failure in Hfail.
  destruct (login_call_keeps w (saTokenPath w options) (saRole w options) v t)
    as ((_ & Ht & _) & _).
  fold r0 in Ht.
  destruct (outcome r0) as [response|e] eqn:Hout.
  - destruct Hfail as (Hbad & ->).
    rewrite (kubernetes_resolved w c options v t response Hex Hout). fold r0.
    rewrite (handle_response_unrecognized c response _ _ Hbad). simpl.
    unfold after_policy. rewrite Ht. reflexivity.
  - subst err. exact (kubernetes_rejected w c options v t e Hex Hout).
Qed.

(** C5, as amended.  When the login call answers with a response whose
    [auth.client_token] is missing (no body, no [auth] object, no field)
    or empty, the strategy leaves the stored token and the stored expiry
    as they were and hands one wrapped error, holding the response body,
    to the error handler. *)
Theorem unrecognized_response_keeps_token (w : World) (c : Client)
    (options : AuthOptions) (v : Vault) (t : Z) (response : LoginResponse) :
  existsSync w (saTokenPath w options) = true ->
  outcome (login_call w (saTokenPath w options) (saRole w options) v t)
    = Return response ->
  response_token response = None \/ response_token response = Some "" ->
  let r := kubernetes w c options v t in
  let err := UnrecognizedResponse (login_data response) in
  token (vault r) = token v
  /\ tokenExpiresAt (vault r) = tokenExpiresAt v
  /\ trace r
     = (trace (login_call w (saTokenPath w options) (saRole w options) v t)
        ++ [EvErrorHandler err])%list
  /\ count is_handler_call (trace r) = 1%nat
  /\ outcome r = after_policy c err v.
Proof.
  intros Hex Hout Hbad r err. subst r.
  apply truthy_false in Hbad.
  destruct (login_call_keeps w (saTokenPath w options) (saRole w options) v t)
    as ((_ & Ht & He) & _ & Hquiet).
  rewrite (kubernetes_failure w c options v t err Hex).
  - cbn [outcome vault clock trace]. rewrite count_app, Hquiet.
    repeat split; assumption.
  - unfold login_failure. rewrite Hout. split; [assumption | reflexivity].
Qed.

Lemma unrecognized_response_keeps_token_witness :
  let w := answering no_auth_response in
  let r := kubernetes w (sample_client returning_handler) no_options
             sample_vault 1000 in
  let err := UnrecognizedResponse (login_data no_auth_response) in
  token (vault r) = token sample_vault
  /\ tokenExpiresAt (vault r) = tokenExpiresAt sample_vault
  /\ trace r
     = (trace (login_call w (saTokenPath w no_options) (saRole w no_options)
                 sample_vault 1000)
        ++ [EvErrorHandler err])%list
  /\ count is_handler_call (trace r) = 1%nat
  /\ outcome r = after_policy (sample_client returning_handler) err sample_vault.
Proof.
  apply (unrecognized_response_keeps_token (answering no_auth_response)
           (sample_client returning_handler) no_options sample_vault 1000
           no_auth_response);
    [reflexivity | reflexivity | left; reflexivity].
Defined.

(** C5, as stated, fails: a response that lacks [auth.lease_duration],
    one of the two expected fields, is taken for good.  The token is
    overwritten, the expiry becomes NaN, and no error reaches the
    handler. *)
Lemma response_without_lease_is_stored :
  let w := answering no_lease_response in
  let r := kubernetes w (sample_client returning_handler) no_options
             sample_vault 1000 in
  outcome (login_call w (saTokenPath w no_options) (saRole w no_options)
             sample_vault 1000) = Return no_lease_response
  /\ response_lease no_lease_response = None
  /\ token sample_vault = "stale"
  /\ token (vault r) = "tok-2"
  /\ token (vault r) <> token sample_vault
  /\ tokenExpiresAt sample_vault = Num 0
  /\ tokenExpiresAt (vault r) = NaN
  /\ tokenExpiresAt (vault r) <> tokenExpiresAt sample_vault
  /\ count is_handler_call (trace r) = 0%nat.
Proof.
  cbv zeta; repeat split; try reflexivity; vm_compute; discriminate.
Qed.

(** A failed Kubernetes login, seen from [getToken]. *)
Lemma getToken_failed_login (w : World) (c : Client) (v : Vault) (t : Z)
    (err : Error) :
  authMethod c = AuthName "kubernetes" ->
  ~ fresh v t ->
  existsSync w (saTokenPath w (authOptions c)) = true ->
  let r0 := login_call w (saTokenPath w (authOptions c))
              (saRole w (authOptions c)) v t in
  login_failure r0 v err ->
  getToken w c v t =
  mkRun (after_policy c err v) (vault r0) (clock r0)
        (EvAuth :: trace r0 ++ [EvErrorHandler err]).
Proof.
  intros Hm Hstale Hex r0 Hfail.
  rewrite (getToken_miss w c v t Hstale).
  rewrite (auth_strategy w c (kubernetes w c (authOptions c)) v t)
    by (unfold strategy; rewrite Hm; reflexivity).
  rewrite (kubernetes_failure w c (authOptions c) v t err Hex Hfail).
  reflexivity.
Qed.

(** C6, as amended.  When the built-in Kubernetes login fails, by a
    failed login call or by an unrecognized response, [getToken] does not
    throw of its own: the wrapped error goes to the error handler, once.
    What the handler throws comes out of [getToken]; when the handler
    returns, its value is dropped and [getToken] returns the stored
    token, which like the stored expiry is unchanged.  A caller-supplied
    strategy that throws is not caught: its error comes out of
    [getToken] as it is, and the client calls no error handler for it. *)
Theorem failed_login_returns_cached_token (w : World) (c : Client)
    (v : Vault) (t : Z) :
  ~ fresh v t ->
  let r := getToken w c v t in
  (authMethod c = AuthName "kubernetes" ->
   existsSync w (saTokenPath w (authOptions c)) = true ->
   let r0 := login_call w (saTokenPath w (authOptions c))
               (saRole w (authOptions c)) v t in
   forall err, login_failure r0 v err ->
     trace r = EvAuth :: trace r0 ++ [EvErrorHandler err]
     /\ count is_handler_call (trace r) = 1%nat
     /\ (forall e, errorHandler c err = Throw e -> outcome r = Throw e)
     /\ (forall x, errorHandler c err = Return x ->
           outcome r = Return (VString (token v)))
     /\ token (vault r) = token v
     /\ tokenExpiresAt (vault r) = tokenExpiresAt v)
  /\ (forall f e,
        authMethod c = AuthFunction f ->
        outcome (f (authOptions c) v t) = Throw e ->
        outcome r = Throw e
        /\ trace r = EvAuth :: trace (f (authOptions c) v t)
        /\ vault r = vault (f (authOptions c) v t)).
Proof.
  intros Hstale r. subst r. split.
  - intros Hm Hex r0 err Hfail.
    destruct (login_call_keeps w (saTokenPath w (authOptions c))
                (saRole w (authOptions c)) v t) as ((_ & Ht & He) & _ & Hquiet).
    fold r0 in Ht, He, Hquiet.
    rewrite (getToken_failed_login w c v t err Hm Hstale Hex Hfail). fold r0.
    cbn [outcome vault clock trace].
    rewrite count_cons, count_app, Hquiet. unfold after_policy.
    repeat split; try assumption.
    + intros e E. rewrite E. reflexivity.
    + intros x E. rewrite E. reflexivity.
  - intros f e Hm Hout.
    assert (Hs : strategy w c = Some (f (authOptions c))).
    { unfold strategy. rewrite Hm. reflexivity. }
    rewrite (getToken_miss w c v t Hstale), (auth_strategy w c _ v t Hs).
    cbn [outcome vault clock trace]. repeat split. exact Hout.
Qed.

Lemma failed_login_returns_cached_token_witness :
  (let c := sample_client returning_handler in
   let r := getToken refusing c sample_vault 1000 in
   count is_handler_call (trace r) = 1%nat
   /\ outcome r = Return (VString "stale"))
  /\ (let c := throwing_client returning_handler in
      let r := getToken refusing c sample_vault 1000 in
      outcome r = Throw (UserError "no credentials")
      /\ trace r = EvAuth :: trace (throwing_strategy no_options sample_vault 1000)).
Proof.
  assert (Hstale : ~ fresh sample_vault 1000).
  { intros (e & He & Hgt). injection He as <-. vm_compute in Hgt. discriminate. }
  split.
  - destruct (failed_login_returns_cached_token refusing
                (sample_client returning_handler) sample_vault 1000 Hstale)
      as (Hk & _).
    destruct (Hk eq_refl eq_refl
                (TokenRefreshError (login_url (baseUrl sample_vault))
                   (External forbidden)) eq_refl)
      as (_ & Hc & _ & Hr & _).
    split; [exact Hc | exact (Hr (VString "fallback") eq_refl)].
  - destruct (failed_login_returns_cached_token refusing
                (throwing_client returning_handler) sample_vault 1000 Hstale)
      as (_ & Hf).
    destruct (Hf throwing_strategy (UserError "no credentials") eq_refl eq_refl)
      as (Ho & Ht & _).
    split; [exact Ho | exact Ht].
Defined.

(** C6, as stated, fails in two ways.  With a policy that returns
    normally, here yielding "fallback", a refused login makes [getToken]
    return the stored token "stale" and not what the policy yielded.  And
    a caller-supplied strategy that throws makes [getToken] throw at
    once: the policy, though it would return, is never called. *)
Lemma getToken_drops_policy_value :
  (let c := sample_client returning_handler in
   let err := TokenRefreshError (login_url (baseUrl sample_vault))
                (External forbidden) in
   let r := getToken refusing c sample_vault 1000 in
   trace r = [EvAuth;
              EvReadFile "/var/run/secrets/kubernetes.io/serviceaccount/token";
              EvPost "https://vault:8200/v1/auth/kubernetes/login"
                     (mkLoginBody "jwt-abc" "blockchain")
                     (mkAgent (Some false) None);
              EvErrorHandler err]
   /\ errorHandler c err = Return (VString "fallback")
   /\ outcome r = Return (VString "stale")
   /\ outcome r <> errorHandler c err)
  /\
  (let c := throwing_client returning_handler in
   let r := getToken sample_world c sample_vault 1000 in
   outcome r = Throw (UserError "no credentials")
   /\ trace r = [EvAuth]
   /\ count is_handler_call (trace r) = 0%nat).
Proof.
  split; cbv zeta; repeat split; try reflexivity; vm_compute; discriminate.
Qed.

(** ** The constructor *)

Lemma or_else_self (s : string) : or_else (Some s) "" = s.
Proof.
  unfold or_else. destruct (String.eqb s "") eqn:E; [|reflexivity].
  apply String.eqb_eq in E. congruence.
Qed.

Lemma authMethods_None (w : World) (name : string) :
  authMethods w name = None <-> name <> "kubernetes".
Proof.
  unfold authMethods. destruct (String.eqb name "kubernetes") eqn:E.
  - apply String.eqb_eq in E. split; [discriminate | congruence].
  - apply String.eqb_neq in E. split; [intros _; exact E | reflexivity].
Qed.

(** A successful construction, spelled out. *)
Lemma constructor_Return (w : World) (config : Config) (now : Z)
    (c : Client) (v : Vault) :
  constructor w config now = Return (c, v) ->
  c = mkClient (resolved_authMethod w config)
               (default (mkAuthOptions None None) (cfg_authOptions config))
               (default defaults.getErrorHandler (cfg_errorHandler config))
  /\ v = mkVault (normalize_baseUrl (resolved_baseUrl w config))
                 (resolved_sslCertPath w config)
                 (resolved_ignoreSslCertCheck w config)
                 None
                 (resolved_token w config)
                 (if String.eqb (resolved_token w config) ""
                  then Num 0 else Num (now + thirtyOneDays))
  /\ unsupported w (resolved_authMethod w config) = None
  /\ resolved_baseUrl w config <> "".
Proof.
  unfold constructor.
  destruct (unsupported w (resolved_authMethod w config)); [discriminate|].
  destruct (negb (existsSync w (resolved_sslCertPath w config))
            && negb (resolved_ignoreSslCertCheck w config)); [discriminate|].
  destruct (String.eqb (resolved_baseUrl w config) "") eqn:Eb; [discriminate|].
  rewrite or_else_self. unfold truthy. intros [= <- <-].
  apply String.eqb_neq in Eb.
  destruct (String.eqb (resolved_token w config) ""); repeat split; assumption.
Qed.

Lemma constructed_strategy (w w' : World) (config : Config) (now : Z)
    (c : Client) (v : Vault) :
  constructor w config now = Return (c, v) ->
  exists s, strategy w' c = Some s.
Proof.
  intros H. apply constructor_Return in H as (-> & _ & Hs & _).
  unfold strategy, unsupported in *. simpl.
  destruct (resolved_authMethod w config) as [name|f]; [|eauto].
  unfold authMethods in *.
  destruct (String.eqb name "kubernetes"); [eauto | discriminate].
Qed.

(** C3.  Constructed with a non-empty static token, the client stores
    that token with an expiry 31 days after the construction time; any
    [getToken] more than the renewal cliff before that expiry returns the
    static token from the cache, with no strategy call and no other
    event. *)
Theorem static_token_is_cached (w : World) (config : Config) (now : Z)
    (tok : string) (c : Client) (v : Vault) :
  cfg_token config = Some tok ->
  tok <> "" ->
  constructor w config now = Return (c, v) ->
  token v = tok
  /\ tokenExpiresAt v = Num (now + 31 * 24 * 60 * 60 * 1000)
  /\ (forall w' t, t < now + 31 * 24 * 60 * 60 * 1000 - 30 * 1000 ->
        getToken w' c v t = cache_hit v t
        /\ outcome (getToken w' c v t) = Return (VString tok)
        /\ trace (getToken w' c v t) = []).
Proof.
  intros Hcfg Hne Hc.
  apply constructor_Return in Hc as (_ & Hv & _).
  assert (Hres : resolved_token w config = tok).
  { unfold resolved_token. rewrite Hcfg. reflexivity. }
  rewrite Hres in Hv.
  apply String.eqb_neq in Hne. rewrite Hne in Hv.
  assert (Htok : token v = tok) by (subst v; reflexivity).
  assert (Hexp : tokenExpiresAt v = Num (now + 31 * 24 * 60 * 60 * 1000))
    by (subst v; reflexivity).
  split; [exact Htok|]. split; [exact Hexp|].
  intros w' t Hlt.
  assert (Hf : fresh v t).
  { exists (now + 31 * 24 * 60 * 60 * 1000). split; [exact Hexp | lia]. }
  rewrite (getToken_hit w' c v t Hf). unfold cache_hit. simpl. rewrite Htok.
  repeat split.
Qed.

Lemma static_token_is_cached_witness :
  constructor sample_world (static_config "t-123") 1000
    = Return (static_client, static_vault "t-123" 2678401000)
  /\ token (static_vault "t-123" 2678401000) = "t-123"
  /\ outcome (getToken refusing static_client (static_vault "t-123" 2678401000)
                2678370999) = Return (VString "t-123")
  /\ trace (getToken refusing static_client (static_vault "t-123" 2678401000)
              2678370999) = [].
Proof.
  destruct (static_token_is_cached sample_world (static_config "t-123") 1000
              "t-123" static_client (static_vault "t-123" 2678401000) eq_refl)
    as (Ht & He & Hg).
  - discriminate.
  - reflexivity.
  - destruct (Hg refusing 2678370999) as (_ & Ho & Htr); [reflexivity|].
    repeat split; assumption.
Defined.

(** C10.  Constructed with the empty string as static token, the client
    stores the empty token and expiry 0, so a first [getToken] (at any
    clock reading from the epoch on) calls the configured strategy.  That
    is the very construction that supplying no token at all gives, the
    configuration leaving it out and [VAULT_TOKEN] being unset or empty
    (leaving it out gives this construction in that case only).
    Whatever the configuration, a token
    that resolves to a non-empty string gets the 31-day expiry and an
    empty one gets expiry 0. *)
Theorem empty_static_token_means_renewal (w : World) (config : Config)
    (now : Z) (c : Client) (v : Vault) :
  cfg_token config = Some "" ->
  constructor w config now = Return (c, v) ->
  token v = ""
  /\ tokenExpiresAt v = Num 0
  /\ (forall w' t, 0 <= t ->
        ~ fresh v t
        /\ exists s, strategy w' c = Some s
                     /\ outcome (getToken w' c v t) = outcome (s v t)
                     /\ trace (getToken w' c v t) = EvAuth :: trace (s v t))
  /\ (process_env w "VAULT_TOKEN" = None \/ process_env w "VAULT_TOKEN" = Some ""
      <-> constructor w (set_cfg_token None config) now = Return (c, v))
  /\ (forall config' c' v',
        constructor w config' now = Return (c', v') ->
        (resolved_token w config' <> "" ->
           tokenExpiresAt v' = Num (now + 31 * 24 * 60 * 60 * 1000))
        /\ (resolved_token w config' = "" -> tokenExpiresAt v' = Num 0)).
Proof.
  intros Hcfg Hc.
  pose proof (constructor_Return w config now c v Hc) as (Hcl & Hv & _).
  assert (Hres : resolved_token w config = "").
  { unfold resolved_token. rewrite Hcfg. reflexivity. }
  rewrite Hres in Hv. simpl in Hv.
  assert (Hexp : tokenExpiresAt v = Num 0) by (subst v; reflexivity).
  split; [subst v; reflexivity|]. split; [exact Hexp|]. split; [|split].
  - intros w' t Ht.
    assert (Hstale : ~ fresh v t).
    { intros (e & He & Hgt). rewrite Hexp in He. injection He as <-. lia. }
    split; [exact Hstale|].
    destruct (constructed_strategy w w' config now c v Hc) as (s & Hs).
    exists s. split; [exact Hs|].
    rewrite (getToken_miss w' c v t Hstale), (auth_strategy w' c s v t Hs).
    split; reflexivity.
  - split.
    + intros Henv. rewrite <- Hc. unfold constructor.
      assert (Htok : resolved_token w (set_cfg_token None config)
                     = resolved_token w config).
      { rewrite Hres. unfold resolved_token, defaults.getToken. simpl.
        destruct Henv as [-> | ->]; reflexivity. }
      rewrite Htok. reflexivity.
    + intros Hnone.
      apply constructor_Return in Hnone as (_ & Hv' & _).
      assert (Htok : defaults.getToken w = "").
      { change (defaults.getToken w)
          with (resolved_token w (set_cfg_token None config)).
        transitivity (token v); [rewrite Hv' | rewrite Hv]; reflexivity. }
      unfold defaults.getToken, or_else in Htok.
      destruct (process_env w "VAULT_TOKEN") as [s|]; [|left; reflexivity].
      right. destruct (String.eqb s "") eqn:E; [|congruence].
      apply String.eqb_eq in E. congruence.
  - intros config' c' v' Hc'.
    apply constructor_Return in Hc' as (_ & -> & _). simpl.
    split.
    + intros Hne. apply String.eqb_neq in Hne. rewrite Hne. reflexivity.
    + intros ->. reflexivity.
Qed.

Lemma empty_static_token_means_renewal_witness :
  constructor sample_world (static_config "") 1000
    = Return (static_client, static_vault "" 0)
  /\ token (static_vault "" 0) = ""
  /\ tokenExpiresAt (static_vault "" 0) = Num 0
  /\ constructor sample_world (set_cfg_token None (static_config "")) 1000
     = Return (static_client, static_vault "" 0).
Proof.
  destruct (empty_static_token_means_renewal sample_world (static_config "")
              1000 static_client (static_vault "" 0) eq_refl eq_refl)
    as (Ht & He & _ & Hsame & _).
  split; [reflexivity|]. split; [exact Ht|]. split; [exact He|].
  apply (proj1 Hsame). left. reflexivity.
Defined.

(** Where the environment holds a token, leaving the token out of the
    configuration supplies that one: with [VAULT_TOKEN=abc] such a
    construction stores "abc" with the 31-day expiry and its first
    [getToken] answers from the cache, while a construction with the
    empty string stores the empty token with expiry 0 and its first
    [getToken] calls the strategy. *)
Lemma empty_token_differs_from_no_token :
  let w := with_env sample_world env_with_token in
  vault_of (constructor w (static_config "") 1000) = Some (static_vault "" 0)
  /\ vault_of (constructor w (set_cfg_token None (static_config "")) 1000)
     = Some (static_vault "abc" 2678401000)
  /\ vault_of (constructor w (static_config "") 1000)
     <> vault_of (constructor w (set_cfg_token None (static_config "")) 1000)
  /\ option_map trace (construct_then_getToken w (static_config "") 1000 2000)
     = Some [EvAuth;
             EvReadFile "/var/run/secrets/kubernetes.io/serviceaccount/token";
             EvPost "https://vault:8200/v1/auth/kubernetes/login"
                    (mkLoginBody "jwt-abc" "blockchain")
                    (mkAgent (Some false) None)]
  /\ construct_then_getToken w (set_cfg_token None (static_config "")) 1000 2000
     = Some (cache_hit (static_vault "abc" 2678401000) 2000).
Proof.
  cbv zeta; repeat split; try reflexivity; vm_compute; discriminate.
Qed.

Lemma unsupported_Some (w : World) (m : AuthMethod) (name : string) :
  unsupported w m = Some name -> m = AuthName name /\ name <> "kubernetes".
Proof.
  unfold unsupported. destruct m as [name'|f]; [|discriminate].
  destruct (authMethods w name') eqn:E; [discriminate|].
  intros [= <-]. split; [reflexivity|].
  exact (proj1 (authMethods_None w name') E).
Qed.

Lemma unsupported_None (w : World) (m : AuthMethod) (name : string) :
  unsupported w m = None -> m = AuthName name -> name = "kubernetes".
Proof.
  unfold unsupported, authMethods. intros H ->.
  destruct (String.eqb name "kubernetes") eqn:E; [|discriminate].
  apply String.eqb_eq, E.
Qed.

Lemma constructor_Throw (w : World) (config : Config) (now : Z) (e : Error) :
  constructor w config now = Throw e ->
  is_config_error e /\ config_error w config.
Proof.
  unfold constructor, config_error.
  destruct (unsupported w (resolved_authMethod w config)) as [name|] eqn:Eu.
  { intros [= <-]. split; [exact I|]. left. exists name.
    apply (unsupported_Some w), Eu. }
  destruct (existsSync w (resolved_sslCertPath w config)) eqn:Ex;
    destruct (resolved_ignoreSslCertCheck w config) eqn:Ei;
    cbn [negb andb];
    try (intros [= <-]; split; [exact I | right; left; split; reflexivity]).
  all: destruct (String.eqb (resolved_baseUrl w config) "") eqn:Eb;
    [|discriminate].
  all: apply String.eqb_eq in Eb.
  all: intros [= <-]; split; [exact I | right; right; exact Eb].
Qed.

Lemma constructor_ok (w : World) (config : Config) (now : Z)
    (c : Client) (v : Vault) :
  constructor w config now = Return (c, v) -> ~ config_error w config.
Proof.
  intros H [(name & Hm & Hne) | [(Hex & Hig) | Hb]].
  - apply constructor_Return in H as (_ & _ & Hs & _).
    exact (Hne (unsupported_None w _ name Hs Hm)).
  - revert H. unfold constructor.
    rewrite Hex, Hig. cbn [negb andb].
    destruct (unsupported w _); discriminate.
  - apply constructor_Return in H as (_ & _ & _ & Hne). exact (Hne Hb).
Qed.

Lemma constructor_ignores_errorHandler (w : World) (config : Config) (now : Z)
    (h : option (Error -> Outcome value)) (e : Error) :
  constructor w config now = Throw e ->
  constructor w (set_cfg_errorHandler h config) now = Throw e.
Proof.
  unfold constructor.
  cbn [set_cfg_errorHandler cfg_baseUrl cfg_sslCertPath cfg_errorHandler
       cfg_ignoreSslCertCheck cfg_token cfg_authMethod cfg_authOptions].
  destruct (unsupported w _); [trivial|].
  destruct (negb _ && negb _); [trivial|].
  destruct (String.eqb _ ""); [trivial | discriminate].
Qed.

(** C8.  The constructor throws exactly on a configuration error: an
    auth method given as a string that names no built-in strategy, a
    missing CA certificate file while the check is not switched off, or
    an empty base URL.  Otherwise it returns the client.  The error is
    one of the constructor's own three and is the same whatever error
    handler the configuration holds: the policy is not consulted. *)
Theorem constructor_throws_iff_config_error (w : World) (config : Config)
    (now : Z) :
  ((exists e, constructor w config now = Throw e) <-> config_error w config)
  /\ (~ config_error w config ->
      exists c v, constructor w config now = Return (c, v))
  /\ (forall e, constructor w config now = Throw e ->
        is_config_error e
        /\ forall h, constructor w (set_cfg_errorHandler h config) now = Throw e).
Proof.
  destruct (constructor w config now) as [[c v]|e] eqn:E.
  - pose proof (constructor_ok w config now c v E) as Hok.
    split; [split|split].
    + intros (e & He). discriminate.
    + intros Herr. contradiction.
    + intros _. exists c, v. reflexivity.
    + intros e He. discriminate.
  - pose proof (constructor_Throw w config now e E) as (Hown & Herr).
    split; [split|split].
    + intros _. exact Herr.
    + intros _. exists e. reflexivity.
    + intros Hn. contradiction.
    + intros e' [= <-]. split; [exact Hown|].
      intros h. apply constructor_ignores_errorHandler, E.
Qed.

(** ** The base URL *)

Lemma append_cons (a : ascii) (s rest : string) :
  String a s +:+ rest = String a (s +:+ rest).
Proof. reflexivity. Qed.

Lemma strip_prefix_app (p rest : string) : strip_prefix p (p +:+ rest) = Some rest.
Proof.
  induction p as [|a p IH].
  - destruct rest; reflexivity.
  - rewrite append_cons. simpl. rewrite Ascii.eqb_refl. exact IH.
Qed.

Lemma strip_prefix_Some (p s rest : string) :
  strip_prefix p s = Some rest -> s = p +:+ rest.
Proof.
  revert s. induction p as [|a p IH]; intros s H.
  - destruct s; simpl in H; injection H as <-; reflexivity.
  - destruct s as [|b s]; simpl in H; [discriminate|].
    destruct (Ascii.eqb a b) eqn:E; [|discriminate].
    apply Ascii.eqb_eq in E. subst b. rewrite append_cons.
    f_equal. apply IH, H.
Qed.

Lemma strip_scheme_http (rest : string) : strip_scheme ("http://" +:+ rest) = rest.
Proof.
  unfold strip_scheme. rewrite !append_cons.
  cbn [strip_prefix Ascii.eqb Bool.eqb].
  change ("" +:+ rest) with rest. destruct rest; reflexivity.
Qed.

Lemma strip_scheme_https (rest : string) : strip_scheme ("https://" +:+ rest) = rest.
Proof. unfold strip_scheme. rewrite strip_prefix_app. reflexivity. Qed.

Lemma strip_scheme_none (s : string) :
  (forall rest, s <> "http://" +:+ rest) ->
  (forall rest, s <> "https://" +:+ rest) ->
  strip_scheme s = s.
Proof.
  intros H1 H2. unfold strip_scheme.
  destruct (strip_prefix "https://" s) as [r|] eqn:E.
  - apply strip_prefix_Some in E. exfalso. exact (H2 r E).
  - destruct (strip_prefix "http://" s) as [r|] eqn:E'; [|reflexivity].
    apply strip_prefix_Some in E'. exfalso. exact (H1 r E').
Qed.

Lemma strip_trailing_slash_app (s : string) : strip_trailing_slash (s +:+ "/") = s.
Proof.
  induction s as [|ch s IH]; [reflexivity|].
  rewrite append_cons. cbn [strip_trailing_slash]. rewrite IH.
  destruct s; reflexivity.
Qed.

Lemma strip_trailing_slash_none (s : string) :
  (forall rest, s <> rest +:+ "/") -> strip_trailing_slash s = s.
Proof.
  induction s as [|ch s IH]; intros H; [reflexivity|].
  simpl. destruct s as [|ch' s'].
  - destruct (Ascii.eqb ch "/") eqn:E; [|reflexivity].
    apply Ascii.eqb_eq in E. subst ch. exfalso. exact (H "" eq_refl).
  - f_equal. apply IH. intros rest Hr.
    apply (H (String ch rest)). rewrite append_cons, Hr. reflexivity.
Qed.

Lemma keeps_ret {A} (a : A) : keeps_baseUrl (ret a).
Proof. intros v t. reflexivity. Qed.

Lemma keeps_this {A} (f : Vault -> A) : keeps_baseUrl (this f).
Proof. intros v t. reflexivity. Qed.

Lemma keeps_throw {A} (e : Error) : keeps_baseUrl (@throw A e).
Proof. intros v t. reflexivity. Qed.

Lemma keeps_await {A} (w : World) (ev : Event) (r : IoResult A) :
  keeps_baseUrl (await w ev r).
Proof. intros v t. reflexivity. Qed.

Lemma keeps_emit (ev : Event) : keeps_baseUrl (emit ev).
Proof. intros v t. reflexivity. Qed.

Lemma keeps_call_errorHandler (c : Client) (e : Error) :
  keeps_baseUrl (call_errorHandler c e).
Proof. intros v t. reflexivity. Qed.

Lemma keeps_bind {A B} (m : M A) (k : A -> M B) :
  keeps_baseUrl m -> (forall a, keeps_baseUrl (k a)) -> keeps_baseUrl (bind m k).
Proof.
  intros Hm Hk v t. unfold bind. specialize (Hm v t).
  destruct (m v t) as [[a|e] v1 t1 tr1]; simpl in *; [|exact Hm].
  specialize (Hk a v1 t1). destruct (k a v1 t1); simpl in *. congruence.
Qed.

Lemma keeps_try_catch {A} (m : M A) (h : Error -> M A) :
  keeps_baseUrl m -> (forall e, keeps_baseUrl (h e)) ->
  keeps_baseUrl (try_catch m h).
Proof.
  intros Hm Hh v t. unfold try_catch. specialize (Hm v t).
  destruct (m v t) as [[a|e] v1 t1 tr1]; simpl in *; [exact Hm|].
  specialize (Hh e v1 t1). destruct (h e v1 t1); simpl in *. congruence.
Qed.

Lemma keeps_getHttpsAgent (w : World) : keeps_baseUrl (getHttpsAgent w).
Proof. intros v t. apply (getHttpsAgent_keeps w v t). Qed.

Lemma keeps_handle_response (c : Client) (response : LoginResponse) :
  keeps_baseUrl (handle_response c response).
Proof.
  intros v t.
  destruct (truthy (response_token response)) eqn:E.
  - unfold truthy in E.
    destruct (response_token response) as [tok|] eqn:Et; [|discriminate].
    rewrite (handle_response_recognized c response tok v t Et).
    + reflexivity.
    + intros ->. discriminate.
  - rewrite (handle_response_unrecognized c response v t E). reflexivity.
Qed.

Lemma keeps_kubernetes (w : World) (c : Client) (options : AuthOptions) :
  keeps_baseUrl (kubernetes w c options).
Proof.
  unfold kubernetes.
  destruct (negb (existsSync w (saTokenPath w options))); [apply keeps_throw|].
  apply keeps_bind.
  - apply keeps_try_catch.
    + apply keeps_bind; [|intros; apply keeps_ret].
      intros v t. apply (login_call_keeps w _ _ v t).
    + intros e. apply keeps_bind; [apply keeps_this|]. intros url.
      apply keeps_bind; [apply keeps_call_errorHandler|]. intros _.
      apply keeps_bind; [apply keeps_this|]. intros; apply keeps_ret.
  - intros [response|early]; [apply keeps_handle_response | apply keeps_ret].
Qed.

Lemma keeps_auth (w : World) (c : Client) :
  (forall f, authMethod c = AuthFunction f -> forall o, keeps_baseUrl (f o)) ->
  keeps_baseUrl (auth w c).
Proof.
  intros Hf. unfold auth.
  destruct (authMethod c) as [name|f].
  - unfold authMethods. destruct (String.eqb name "kubernetes");
      [|apply keeps_throw].
    apply keeps_bind; [apply keeps_emit|]. intros _. apply keeps_kubernetes.
  - apply keeps_bind; [apply keeps_emit|]. intros _. apply (Hf f eq_refl).
Qed.

Lemma keeps_getToken (w : World) (c : Client) :
  (forall f, authMethod c = AuthFunction f -> forall o, keeps_baseUrl (f o)) ->
  keeps_baseUrl (getToken w c).
Proof.
  intros Hf. unfold getToken.
  apply keeps_bind; [apply keeps_this|]. intros expires.
  apply keeps_bind; [intros v t; reflexivity|]. intros now.
  destruct (jsgt _ _).
  - apply keeps_bind; [apply keeps_this|]. intros; apply keeps_ret.
  - apply keeps_auth, Hf.
Qed.

Lemma keeps_request (w : World) (c : Client) (params : RequestParams) :
  (forall f, authMethod c = AuthFunction f -> forall o, keeps_baseUrl (f o)) ->
  keeps_baseUrl (request w c params).
Proof.
  intros Hf. unfold request.
  apply keeps_bind; [apply keeps_this|]. intros base.
  apply keeps_bind; [apply keeps_getHttpsAgent|]. intros agent.
  apply keeps_bind; [apply keeps_getToken, Hf|]. intros tok.
  apply keeps_try_catch.
  - apply keeps_bind; [apply keeps_await|]. intros; apply keeps_ret.
  - intros e. apply keeps_bind; [apply keeps_this|]. intros.
    apply keeps_call_errorHandler.
Qed.

Lemma after_call_keeps (c : Client) (v : Vault) (step : World * Call * Z) :
  (forall f, authMethod c = AuthFunction f -> forall o, keeps_baseUrl (f o)) ->
  baseUrl (after_call c v step) = baseUrl v.
Proof.
  intros Hf. destruct step as [[w [| params | |]] t]; simpl.
  - apply keeps_getToken, Hf.
  - apply keeps_request, Hf.
  - apply keeps_getHttpsAgent.
  - apply keeps_auth, Hf.
Qed.

Lemma after_calls_keep (c : Client) (steps : list (World * Call * Z)) (v : Vault) :
  (forall f, authMethod c = AuthFunction f -> forall o, keeps_baseUrl (f o)) ->
  baseUrl (after_calls c v steps) = baseUrl v.
Proof.
  intros Hf. unfold after_calls. revert v.
  induction steps as [|step steps IH]; intros v; simpl; [reflexivity|].
  rewrite IH. apply after_call_keeps, Hf.
Qed.

(** C9.  For a construction that succeeds, the base URL in use is not
    empty and the stored one is "https://" followed by that URL without a
    leading "http://" or "https://" and without a slash at its end.  No
    method of the client changes the stored value afterwards, over any
    sequence of calls (a caller-supplied strategy is other code: it is
    taken not to write [this.baseUrl]). *)
Theorem baseUrl_normalized_and_kept (w : World) (config : Config) (now : Z)
    (c : Client) (v : Vault) :
  constructor w config now = Return (c, v) ->
  (forall f, authMethod c = AuthFunction f -> forall o, keeps_baseUrl (f o)) ->
  let url := resolved_baseUrl w config in
  url <> ""
  /\ baseUrl v = "https://" +:+ strip_trailing_slash (strip_scheme url)
  /\ (forall rest, url = "http://" +:+ rest \/ url = "https://" +:+ rest ->
        strip_scheme url = rest)
  /\ ((forall rest, url <> "http://" +:+ rest) ->
      (forall rest, url <> "https://" +:+ rest) ->
      strip_scheme url = url)
  /\ (forall body, strip_scheme url = body +:+ "/" ->
        baseUrl v = "https://" +:+ body)
  /\ ((forall body, strip_scheme url <> body +:+ "/") ->
      baseUrl v = "https://" +:+ strip_scheme url)
  /\ (forall steps, baseUrl (after_calls c v steps) = baseUrl v).
Proof.
  intros Hc Hf url.
  apply constructor_Return in Hc as (_ & Hv & _ & Hne).
  assert (Hb : baseUrl v = "https://" +:+ strip_trailing_slash (strip_scheme url)).
  { subst v. reflexivity. }
  split; [exact Hne|]. split; [exact Hb|]. split; [|split; [|split; [|split]]].
  - intros rest [-> | ->]; [apply strip_scheme_http | apply strip_scheme_https].
  - apply strip_scheme_none.
  - intros body Hs. rewrite Hb, Hs, strip_trailing_slash_app. reflexivity.
  - intros Hs. rewrite Hb, (strip_trailing_slash_none _ Hs). reflexivity.
  - intros steps. apply after_calls_keep, Hf.
Qed.

Lemma baseUrl_normalized_and_kept_witness :
  constructor sample_world custom_config 1000
    = Return (custom_client, static_vault "" 0)
  /\ baseUrl (static_vault "" 0) = "https://vault:8200/v1"
  /\ baseUrl (after_calls custom_client (static_vault "" 0)
                [(sample_world, CallGetToken, 2000);
                 (refusing, CallRequest get_secret, 3000)])
     = "https://vault:8200/v1".
Proof.
  destruct (baseUrl_normalized_and_kept sample_world custom_config 1000
              custom_client (static_vault "" 0) eq_refl)
    as (_ & _ & _ & _ & Hb & _ & Hk).
  - intros f E o v t. injection E as <-. reflexivity.
  - split; [reflexivity|]. split; [reflexivity|]. apply Hk.
Defined.

(** ** Requests *)

Lemma merge_headers_token (tok : value) (headers : option (gmap string value)) :
  merge_headers tok headers !! "X-Vault-Token"
  = Some (default tok (default ∅ headers !! "X-Vault-Token")).
Proof.
  unfold merge_headers. rewrite lookup_union, lookup_singleton_eq.
  destruct (default ∅ headers !! "X-Vault-Token"); reflexivity.
Qed.

Lemma merge_headers_other (tok : value) (headers : option (gmap string value))
    (k : string) :
  k <> "X-Vault-Token" ->
  merge_headers tok headers !! k = default ∅ headers !! k.
Proof.
  intros Hk. unfold merge_headers.
  rewrite lookup_union, lookup_singleton_ne by congruence.
  destruct (default ∅ headers !! k); reflexivity.
Qed.

(** The parameters axios receives, given the agent and the token. *)
Lemma request_sends (w : World) (c : Client) (params : RequestParams)
    (v : Vault) (t : Z) (agent : Agent) (tok : value) :
  let r1 := getHttpsAgent w v t in
  let r2 := getToken w c (vault r1) (clock r1) in
  outcome r1 = Return agent ->
  outcome r2 = Return tok ->
  let sent := with_headers (merge_headers tok (p_headers params))
                (with_defaults (baseUrl v) agent params) in
  exists rest,
    trace (request w c params v t)
    = trace r1 ++ trace r2 ++ EvRequest sent :: rest
    /\ count is_network_call rest = 0%nat.
Proof.
  intros r1 r2 H1 H2 sent. revert H2. subst r2. revert H1. subst r1.
  unfold request. cbv [bind this try_catch await call_errorHandler ret].
  destruct (getHttpsAgent w v t) as [o1 v1 t1 tr1].
  cbn [outcome vault clock trace]. intros ->.
  destruct (getToken w c v1 t1) as [o2 v2 t2 tr2].
  cbn [outcome vault clock trace]. intros ->.
  change (p_headers (with_defaults (baseUrl v) agent params))
    with (p_headers params).
  fold sent.
  destruct (axios_request w sent) as [response|e];
    cbn [outcome vault clock trace app].
  - exists []. split; reflexivity.
  - exists [EvErrorHandler (RequestError sent (External e) (token v2))].
    split; reflexivity.
Qed.

Lemma request_stops_early (w : World) (c : Client) (params : RequestParams)
    (v : Vault) (t : Z) (e : Error) :
  let r1 := getHttpsAgent w v t in
  let r2 := getToken w c (vault r1) (clock r1) in
  (outcome r1 = Throw e ->
     outcome (request w c params v t) = Throw e
     /\ trace (request w c params v t) = trace r1)
  /\ (forall agent, outcome r1 = Return agent -> outcome r2 = Throw e ->
        outcome (request w c params v t) = Throw e
        /\ trace (request w c params v t) = trace r1 ++ trace r2).
Proof.
  intros r1 r2. subst r2 r1. split.
  - unfold request. cbv [bind this].
    destruct (getHttpsAgent w v t) as [o1 v1 t1 tr1].
    cbn [outcome vault clock trace]. intros ->. split; reflexivity.
  - intros agent. unfold request. cbv [bind this].
    destruct (getHttpsAgent w v t) as [o1 v1 t1 tr1].
    cbn [outcome vault clock trace]. intros ->.
    destruct (getToken w c v1 t1) as [o2 v2 t2 tr2].
    cbn [outcome vault clock trace]. intros ->. split; reflexivity.
Qed.

(** C7.  A call of [request] first obtains the agent and then the token
    from [getToken]; if either throws, the error comes out and nothing is
    sent.  Otherwise one data request is sent, and its headers are the
    caller's with the token added under "X-Vault-Token": a header of that
    name supplied by the caller stays as the caller gave it, and every
    other header of the caller goes out unchanged. *)
Theorem request_merges_token (w : World) (c : Client) (params : RequestParams)
    (v : Vault) (t : Z) :
  let r1 := getHttpsAgent w v t in
  let r2 := getToken w c (vault r1) (clock r1) in
  let r := request w c params v t in
  let caller := default ∅ (p_headers params) in
  (forall e, outcome r1 = Throw e -> outcome r = Throw e /\ trace r = trace r1)
  /\ (forall agent e, outcome r1 = Return agent -> outcome r2 = Throw e ->
        outcome r = Throw e /\ trace r = trace r1 ++ trace r2)
  /\ (forall agent tok, outcome r1 = Return agent -> outcome r2 = Return tok ->
        exists sent headers rest,
          trace r = trace r1 ++ trace r2 ++ EvRequest sent :: rest
          /\ count is_network_call rest = 0%nat
          /\ p_headers sent = Some headers
          /\ headers !! "X-Vault-Token"
             = Some (default tok (caller !! "X-Vault-Token"))
          /\ (caller !! "X-Vault-Token" = None ->
                headers !! "X-Vault-Token" = Some tok)
          /\ (forall mine, caller !! "X-Vault-Token" = Some mine ->
                headers !! "X-Vault-Token" = Some mine)
          /\ (forall k, k <> "X-Vault-Token" -> headers !! k = caller !! k)).
Proof.
  intros r1 r2 r caller. split; [|split].
  - intros e H1. exact (proj1 (request_stops_early w c params v t e) H1).
  - intros agent e H1 H2.
    exact (proj2 (request_stops_early w c params v t e) agent H1 H2).
  - intros agent tok H1 H2.
    destruct (request_sends w c params v t agent tok H1 H2) as (rest & Htr & Hn).
    exists (with_headers (merge_headers tok (p_headers params))
              (with_defaults (baseUrl v) agent params)).
    exists (merge_headers tok (p_headers params)), rest.
    split; [exact Htr|]. split; [exact Hn|]. split; [reflexivity|].
    pose proof (merge_headers_token tok (p_headers params)) as Hm.
    fold caller in Hm.
    split; [exact Hm|]. split; [|split].
    + intros Hnone. rewrite Hm, Hnone. reflexivity.
    + intros mine Hmine. rewrite Hm, Hmine. reflexivity.
    + intros k Hk. apply merge_headers_other, Hk.
Qed.

Lemma request_merges_token_witness :
  (exists sent headers rest,
     trace (request sample_world static_client get_secret
              (static_vault "t-123" 2678401000) 2000)
     = [] ++ [] ++ EvRequest sent :: rest
     /\ p_headers sent = Some headers
     /\ headers !! "X-Vault-Token" = Some (VString "t-123"))
  /\
  (exists sent headers rest,
     trace (request sample_world static_client get_secret_with_header
              (static_vault "t-123" 2678401000) 2000)
     = [] ++ [] ++ EvRequest sent :: rest
     /\ p_headers sent = Some headers
     /\ headers !! "X-Vault-Token" = Some (VString "mine")).
Proof.
  split.
  - destruct (request_merges_token sample_world static_client get_secret
                (static_vault "t-123" 2678401000) 2000) as (_ & _ & H).
    destruct (H (mkAgent (Some false) None) (VString "t-123") eq_refl eq_refl)
      as (sent & headers & rest & Htr & _ & Hh & _ & Hnone & _).
    exists sent, headers, rest.
    split; [exact Htr|]. split; [exact Hh|]. apply Hnone. reflexivity.
  - destruct (request_merges_token sample_world static_client
                get_secret_with_header
                (static_vault "t-123" 2678401000) 2000) as (_ & _ & H).
    destruct (H (mkAgent (Some false) None) (VString "t-123") eq_refl eq_refl)
      as (sent & headers & rest & Htr & _ & Hh & _ & _ & Hmine & _).
    exists sent, headers, rest.
    split; [exact Htr|]. split; [exact Hh|].
    apply Hmine. reflexivity.
Defined.

(** * Further properties *)

(** ** The HTTPS agent *)

Lemma getHttpsAgent_cached (w : World) (v : Vault) (t : Z) (agent : Agent) :
  httpsAgent v = Some agent ->
  getHttpsAgent w v t = mkRun (Return agent) v t [].
Proof.
  intros H. unfold getHttpsAgent, bind, this, ret. simpl. rewrite H. reflexivity.
Qed.

(** The three ways [getHttpsAgent] runs when no agent is stored yet. *)
Lemma getHttpsAgent_fresh (w : World) (v : Vault) (t : Z) :
  httpsAgent v = None ->
  let t1 := t + Z.of_N (elapsed w (EvReadFile (sslCertPath v))) in
  getHttpsAgent w v t =
  if ignoreSslCertCheck v
  then mkRun (Return (mkAgent (Some false) None))
             (set_httpsAgent (Some (mkAgent (Some false) None)) v) t []
  else match readFile w (sslCertPath v) with
       | Resolve cert =>
           mkRun (Return (mkAgent None (Some cert)))
                 (set_httpsAgent (Some (mkAgent None (Some cert))) v) t1
                 [EvReadFile (sslCertPath v)]
       | Reject e =>
           mkRun (Throw (External e)) v t1 [EvReadFile (sslCertPath v)]
       end.
Proof.
  intros H t1. subst t1.
  destruct v as [base cert ignore agent tok expiry]. simpl in H. subst agent.
  destruct ignore; [reflexivity|].
  cbv [getHttpsAgent bind this ret assign readFileAsync await
       httpsAgent ignoreSslCertCheck sslCertPath set_httpsAgent
       baseUrl token tokenExpiresAt].
  destruct (readFile w cert); reflexivity.
Qed.

(** X1.  When a call of [getHttpsAgent] has returned an agent, that agent
    is stored in the fields the call leaves, and a call made from those
    fields, in any world and at any time, returns the same agent with no
    file read and no other effect.  (Calls one after another: a call
    that overlaps the first at its file read is not covered.) *)
Theorem getHttpsAgent_memoized (w : World) (v : Vault) (t : Z) (agent : Agent) :
  outcome (getHttpsAgent w v t) = Return agent ->
  httpsAgent (vault (getHttpsAgent w v t)) = Some agent
  /\ (forall w' t',
        getHttpsAgent w' (vault (getHttpsAgent w v t)) t'
        = mkRun (Return agent) (vault (getHttpsAgent w v t)) t' []).
Proof.
  intros Hout.
  assert (Hs : httpsAgent (vault (getHttpsAgent w v t)) = Some agent).
  { destruct (httpsAgent v) as [a|] eqn:Ha.
    - rewrite (getHttpsAgent_cached w v t a Ha) in *. simpl in *.
      injection Hout as <-. exact Ha.
    - rewrite (getHttpsAgent_fresh w v t Ha) in *.
      destruct (ignoreSslCertCheck v).
      + simpl in *. injection Hout as <-. reflexivity.
      + destruct (readFile w (sslCertPath v)); simpl in *;
          [injection Hout as <-; reflexivity | discriminate]. }
  split; [exact Hs|].
  intros w' t'. apply getHttpsAgent_cached, Hs.
Qed.

Lemma getHttpsAgent_memoized_witness :
  httpsAgent (vault (getHttpsAgent sample_world checking_vault 1000))
    = Some (mkAgent None (Some "jwt-abc"))
  /\ getHttpsAgent unreadable
       (vault (getHttpsAgent sample_world checking_vault 1000)) 2000
     = mkRun (Return (mkAgent None (Some "jwt-abc")))
             (vault (getHttpsAgent sample_world checking_vault 1000)) 2000 [].
Proof.
  destruct (getHttpsAgent_memoized sample_world checking_vault 1000
              (mkAgent None (Some "jwt-abc")) eq_refl) as (Hs & Hm).
  split; [exact Hs | exact (Hm unreadable 2000)].
Defined.

(** X2.  An agent built by [getHttpsAgent] is of one of two kinds.  With
    [ignoreSslCertCheck] set it switches verification off, carries no CA
    and was built without reading any file.  Otherwise it carries as CA
    exactly what the file at [sslCertPath] holds, leaves verification
    alone, and that file was read once. *)
Theorem built_agent_trust (w : World) (v : Vault) (t : Z) (agent : Agent) :
  httpsAgent v = None ->
  outcome (getHttpsAgent w v t) = Return agent ->
  (ignoreSslCertCheck v = true
   /\ agent = mkAgent (Some false) None
   /\ trace (getHttpsAgent w v t) = [])
  \/ (ignoreSslCertCheck v = false
      /\ exists cert,
           readFile w (sslCertPath v) = Resolve cert
           /\ agent = mkAgent None (Some cert)
           /\ trace (getHttpsAgent w v t) = [EvReadFile (sslCertPath v)]).
Proof.
  intros Ha. rewrite (getHttpsAgent_fresh w v t Ha).
  destruct (ignoreSslCertCheck v).
  - simpl. intros [= <-]. left. repeat split.
  - destruct (readFile w (sslCertPath v)) as [cert|e] eqn:E; simpl;
      [|discriminate].
    intros [= <-]. right. split; [reflexivity|]. exists cert. repeat split.
Qed.

Lemma built_agent_trust_witness :
  (ignoreSslCertCheck checking_vault = true
   /\ mkAgent None (Some "jwt-abc") = mkAgent (Some false) None
   /\ trace (getHttpsAgent sample_world checking_vault 1000) = [])
  \/ (ignoreSslCertCheck checking_vault = false
      /\ exists cert,
           readFile sample_world (sslCertPath checking_vault) = Resolve cert
           /\ mkAgent None (Some "jwt-abc") = mkAgent None (Some cert)
           /\ trace (getHttpsAgent sample_world checking_vault 1000)
              = [EvReadFile (sslCertPath checking_vault)]).
Proof.
  exact (built_agent_trust sample_world checking_vault 1000
           (mkAgent None (Some "jwt-abc")) eq_refl eq_refl).
Defined.

(** X3.  When certificates are checked and the CA file cannot be read,
    [getHttpsAgent] throws the file system's own error and stores
    nothing: the fields are as before, so a later call reads the file
    again and, once it is readable, builds the agent. *)
Theorem unreadable_ca_is_not_memoized (w : World) (v : Vault) (t : Z)
    (e : IoError) :
  httpsAgent v = None ->
  ignoreSslCertCheck v = false ->
  readFile w (sslCertPath v) = Reject e ->
  outcome (getHttpsAgent w v t) = Throw (External e)
  /\ vault (getHttpsAgent w v t) = v
  /\ (forall w' t' cert,
        readFile w' (sslCertPath v) = Resolve cert ->
        outcome (getHttpsAgent w' (vault (getHttpsAgent w v t)) t')
          = Return (mkAgent None (Some cert))
        /\ trace (getHttpsAgent w' (vault (getHttpsAgent w v t)) t')
           = [EvReadFile (sslCertPath v)]).
Proof.
  intros Ha Hi Hr.
  rewrite (getHttpsAgent_fresh w v t Ha), Hi, Hr. simpl.
  split; [reflexivity|]. split; [reflexivity|].
  intros w' t' cert Hr'.
  rewrite (getHttpsAgent_fresh w' v t' Ha), Hi, Hr'. split; reflexivity.
Qed.

Lemma unreadable_ca_is_not_memoized_witness :
  outcome (getHttpsAgent unreadable checking_vault 1000) = Throw (External denied)
  /\ vault (getHttpsAgent unreadable checking_vault 1000) = checking_vault
  /\ outcome (getHttpsAgent sample_world
                (vault (getHttpsAgent unreadable checking_vault 1000)) 2000)
     = Return (mkAgent None (Some "jwt-abc")).
Proof.
  destruct (unreadable_ca_is_not_memoized unreadable checking_vault 1000 denied
              eq_refl eq_refl eq_refl) as (Ho & Hv & Hretry).
  split; [exact Ho|]. split; [exact Hv|].
  exact (proj1 (Hretry sample_world 2000 "jwt-abc" eq_refl)).
Defined.

(** ** Requests, end to end *)

(** [request] once the agent and the token are at hand. *)
Lemma request_run (w : World) (c : Client) (params : RequestParams)
    (v : Vault) (t : Z) (agent : Agent) (tok : value) :
  let r1 := getHttpsAgent w v t in
  let r2 := getToken w c (vault r1) (clock r1) in
  outcome r1 = Return agent ->
  outcome r2 = Return tok ->
  let sent := outgoing (baseUrl v) agent tok params in
  let t3 := clock r2 + Z.of_N (elapsed w (EvRequest sent)) in
  request w c params v t =
  match axios_request w sent with
  | Resolve response =>
      mkRun (Return (response_data response)) (vault r2) t3
            (trace r1 ++ trace r2 ++ [EvRequest sent])
  | Reject e =>
      let err := RequestError sent (External e) (token (vault r2)) in
      mkRun (errorHandler c err) (vault r2) t3
            (trace r1 ++ trace r2 ++ [EvRequest sent; EvErrorHandler err])
  end.
Proof.
  intros r1 r2 H1 H2 sent t3. subst t3. revert H2. subst r2. revert H1. subst r1.
  unfold request. cbv [bind this try_catch await call_errorHandler ret].
  destruct (getHttpsAgent w v t) as [o1 v1 t1 tr1].
  cbn [outcome vault clock trace]. intros ->.
  destruct (getToken w c v1 t1) as [o2 v2 t2 tr2].
  cbn [outcome vault clock trace]. intros ->.
  change (p_headers (with_defaults (baseUrl v) agent params))
    with (p_headers params).
  fold (outgoing (baseUrl v) agent tok params). fold sent.
  destruct (axios_request w sent) as [response|e];
    cbn [outcome vault clock trace app].
  - reflexivity.
  - destruct (errorHandler c _); reflexivity.
Qed.

(** X4.  When the data request succeeds, [request] returns the body of
    the response and nothing else of it.  The data request is the last
    thing that happened, and the request step calls no error handler: the
    handler calls of the run are those of the [getToken] step. *)
Theorem request_returns_body (w : World) (c : Client) (params : RequestParams)
    (v : Vault) (t : Z) (agent : Agent) (tok : value) (response : Response) :
  let r1 := getHttpsAgent w v t in
  let r2 := getToken w c (vault r1) (clock r1) in
  outcome r1 = Return agent ->
  outcome r2 = Return tok ->
  axios_request w (outgoing (baseUrl v) agent tok params) = Resolve response ->
  let r := request w c params v t in
  outcome r = Return (response_data response)
  /\ trace r = trace r1 ++ trace r2
               ++ [EvRequest (outgoing (baseUrl v) agent tok params)]
  /\ count is_handler_call (trace r) = count is_handler_call (trace r2)
  /\ vault r = vault r2.
Proof.
  intros r1 r2 H1 H2 Hreq r. subst r.
  rewrite (request_run w c params v t agent tok H1 H2), Hreq.
  cbn [outcome vault clock trace].
  destruct (getHttpsAgent_keeps w v t) as (_ & (_ & Hh) & _).
  split; [reflexivity|]. split; [reflexivity|]. split; [|reflexivity].
  rewrite !count_app, count_cons.
  change (count is_handler_call []) with 0%nat.
  rewrite Hh. cbn [is_handler_call]. subst r2 r1. lia.
Qed.

Lemma request_returns_body_witness :
  let r := request sample_world static_client get_secret
             (static_vault "t-123" 2678401000) 2000 in
  outcome r = Return (VJson "{}")
  /\ trace r = [] ++ []
               ++ [EvRequest (outgoing "https://vault:8200/v1"
                                (mkAgent (Some false) None) (VString "t-123")
                                get_secret)]
  /\ count is_handler_call (trace r) = 0%nat.
Proof.
  destruct (request_returns_body sample_world static_client get_secret
              (static_vault "t-123" 2678401000) 2000
              (mkAgent (Some false) None) (VString "t-123")
              (mkResponse (VJson "{}")) eq_refl eq_refl eq_refl)
    as (Ho & Ht & Hh & _).
  split; [exact Ho|]. split; [exact Ht | exact Hh].
Defined.

(** X5.  When the data request is rejected, [request] hands one wrapped
    error to the error handler and ends as the handler ends: it returns
    the value the handler returns, or throws what the handler throws.
    The wrapped error holds the parameters that were sent, the transport's
    error and the token stored at that moment. *)
Theorem request_failure_is_policy_result (w : World) (c : Client)
    (params : RequestParams) (v : Vault) (t : Z) (agent : Agent) (tok : value)
    (e : IoError) :
  let r1 := getHttpsAgent w v t in
  let r2 := getToken w c (vault r1) (clock r1) in
  outcome r1 = Return agent ->
  outcome r2 = Return tok ->
  let sent := outgoing (baseUrl v) agent tok params in
  axios_request w sent = Reject e ->
  let r := request w c params v t in
  let err := RequestError sent (External e) (token (vault r2)) in
  outcome r = errorHandler c err
  /\ trace r = trace r1 ++ trace r2 ++ [EvRequest sent; EvErrorHandler err]
  /\ vault r = vault r2.
Proof.
  intros r1 r2 H1 H2 sent Hreq r err. subst r.
  rewrite (request_run w c params v t agent tok H1 H2). fold sent.
  rewrite Hreq. repeat split.
Qed.

Lemma request_failure_is_policy_result_witness :
  let c := sample_client returning_handler in
  let v := static_vault "t-123" 2678401000 in
  let sent := outgoing "https://vault:8200/v1" (mkAgent (Some false) None)
                (VString "t-123") get_secret in
  let err := RequestError sent (External forbidden) "t-123" in
  outcome (request refusing_data c get_secret v 2000) = Return (VString "fallback")
  /\ trace (request refusing_data c get_secret v 2000)
     = [] ++ [] ++ [EvRequest sent; EvErrorHandler err].
Proof.
  destruct (request_failure_is_policy_result refusing_data
              (sample_client returning_handler) get_secret
              (static_vault "t-123" 2678401000) 2000
              (mkAgent (Some false) None) (VString "t-123") forbidden
              eq_refl eq_refl eq_refl) as (Ho & Ht & _).
  split; [exact Ho | exact Ht].
Defined.

(** X6.  What reaches axios keeps the caller's [url] and [data]; the
    base URL, the method and the agent are the caller's when given, and
    otherwise the stored base URL, "post" and the client's own agent. *)
Theorem request_fills_defaults (w : World) (c : Client) (params : RequestParams)
    (v : Vault) (t : Z) (agent : Agent) (tok : value) :
  let r1 := getHttpsAgent w v t in
  let r2 := getToken w c (vault r1) (clock r1) in
  outcome r1 = Return agent ->
  outcome r2 = Return tok ->
  exists sent rest,
    trace (request w c params v t) = trace r1 ++ trace r2 ++ EvRequest sent :: rest
    /\ p_url sent = p_url params
    /\ p_data sent = p_data params
    /\ (p_baseURL params = None -> p_baseURL sent = Some (baseUrl v))
    /\ (p_method params = None -> p_method sent = Some "post")
    /\ (p_httpsAgent params = None -> p_httpsAgent sent = Some agent)
    /\ (forall b, p_baseURL params = Some b -> p_baseURL sent = Some b)
    /\ (forall m, p_method params = Some m -> p_method sent = Some m)
    /\ (forall a, p_httpsAgent params = Some a -> p_httpsAgent sent = Some a).
Proof.
  intros r1 r2 H1 H2.
  exists (outgoing (baseUrl v) agent tok params).
  pose proof (request_run w c params v t agent tok H1 H2) as Hrun.
  cbv zeta in Hrun. fold r1 r2 in Hrun.
  destruct (axios_request w (outgoing (baseUrl v) agent tok params)) as [resp|e].
  - exists []. rewrite Hrun. cbn [trace outgoing with_headers with_defaults
      p_url p_data p_baseURL p_method p_httpsAgent].
    split; [reflexivity|]. split; [reflexivity|]. split; [reflexivity|].
    repeat split; intros; match goal with H : _ = _ |- _ => rewrite H end;
      reflexivity.
  - eexists. rewrite Hrun. cbn [trace outgoing with_headers with_defaults
      p_url p_data p_baseURL p_method p_httpsAgent].
    split; [reflexivity|]. split; [reflexivity|]. split; [reflexivity|].
    repeat split; intros; match goal with H : _ = _ |- _ => rewrite H end;
      reflexivity.
Qed.

Lemma request_fills_defaults_witness :
  exists sent rest,
    trace (request sample_world static_client
             (mkParams None (Some "/x") None None (Some (VJson "{}")) None)
             (static_vault "t-123" 2678401000) 2000)
    = [] ++ [] ++ EvRequest sent :: rest
    /\ p_url sent = Some "/x"
    /\ p_data sent = Some (VJson "{}")
    /\ p_baseURL sent = Some "https://vault:8200/v1"
    /\ p_method sent = Some "post".
Proof.
  destruct (request_fills_defaults sample_world static_client
              (mkParams None (Some "/x") None None (Some (VJson "{}")) None)
              (static_vault "t-123" 2678401000) 2000
              (mkAgent (Some false) None) (VString "t-123") eq_refl eq_refl)
    as (sent & rest & Ht & Hu & Hd & Hb & Hm & _).
  exists sent, rest.
  split; [exact Ht|]. split; [exact Hu|]. split; [exact Hd|].
  split; [exact (Hb eq_refl) | exact (Hm eq_refl)].
Defined.

(** X7.  When certificates are checked, no agent is stored and the CA
    file cannot be read, [request] throws the file system's own error: it
    never reaches [getToken], sends nothing, changes no field, and the
    error handler is not called. *)
Theorem request_unreadable_ca_bypasses_policy (w : World) (c : Client)
    (params : RequestParams) (v : Vault) (t : Z) (e : IoError) :
  httpsAgent v = None ->
  ignoreSslCertCheck v = false ->
  readFile w (sslCertPath v) = Reject e ->
  request w c params v t =
  mkRun (Throw (External e)) v
        (t + Z.of_N (elapsed w (EvReadFile (sslCertPath v))))
        [EvReadFile (sslCertPath v)].
Proof.
  intros Ha Hi Hr.
  pose proof (getHttpsAgent_fresh w v t Ha) as Hg.
  rewrite Hi, Hr in Hg. cbv zeta in Hg.
  unfold request. cbv [bind this]. rewrite Hg. reflexivity.
Qed.

Lemma request_unreadable_ca_bypasses_policy_witness :
  request unreadable (sample_client returning_handler) get_secret
          checking_vault 1000
  = mkRun (Throw (External denied)) checking_vault
          (1000 + Z.of_N (elapsed unreadable (EvReadFile "/ca.crt")))
          [EvReadFile "/ca.crt"].
Proof.
  exact (request_unreadable_ca_bypasses_policy unreadable
           (sample_client returning_handler) get_secret checking_vault 1000
           denied eq_refl eq_refl eq_refl).
Defined.

(** ** The login exchange *)

(** The [try] block of the strategy, step by step. *)
Lemma login_call_run (w : World) (path role : string) (v : Vault) (t : Z) :
  let t1 := t + Z.of_N (elapsed w (EvReadFile path)) in
  let url := login_url (baseUrl v) in
  login_call w path role v t =
  match readFile w path with
  | Reject e => mkRun (Throw (External e)) v t1 [EvReadFile path]
  | Resolve contents =>
      let body := mkLoginBody contents role in
      match getHttpsAgent w v t1 with
      | mkRun (Return agent) v1 t2 tr =>
          mkRun (match axios_post w url body agent with
                 | Resolve response => Return response
                 | Reject e => Throw (External e)
                 end)
                v1 (t2 + Z.of_N (elapsed w (EvPost url body agent)))
                (EvReadFile path :: tr ++ [EvPost url body agent])
      | mkRun (Throw e) v1 t2 tr => mkRun (Throw e) v1 t2 (EvReadFile path :: tr)
      end
  end.
Proof.
  intros t1 url. subst t1 url.
  unfold login_call. cbv [bind this readFileAsync await].
  destruct (readFile w path) as [contents|e]; [|reflexivity].
  destruct (getHttpsAgent w v _) as [[agent|e] v1 t2 tr]; reflexivity.
Qed.

Lemma trace_shape (a sent : Event) (tr rest : list Event) :
  (a :: tr ++ [sent]) ++ rest = a :: tr ++ sent :: rest.
Proof. simpl. rewrite <- app_assoc. reflexivity. Qed.

(** X8.  With the credential file read and the agent at hand, the
    strategy posts once, to the stored base URL followed by
    "/auth/kubernetes/login", with the file's contents as [jwt], the role
    from the options or its default, and the client's agent; whatever the
    answer, no second network call follows. *)
Theorem login_posts_credentials (w : World) (c : Client) (options : AuthOptions)
    (v : Vault) (t : Z) (contents : string) (agent : Agent) :
  existsSync w (saTokenPath w options) = true ->
  readFile w (saTokenPath w options) = Resolve contents ->
  let t1 := t + Z.of_N (elapsed w (EvReadFile (saTokenPath w options))) in
  outcome (getHttpsAgent w v t1) = Return agent ->
  let sent := EvPost (baseUrl v +:+ "/auth/kubernetes/login")
                     (mkLoginBody contents (saRole w options)) agent in
  exists rest,
    trace (kubernetes w c options v t)
    = EvReadFile (saTokenPath w options) :: trace (getHttpsAgent w v t1)
      ++ sent :: rest
    /\ count is_network_call rest = 0%nat
    /\ count is_network_call (trace (kubernetes w c options v t)) = 1%nat.
Proof.
  intros Hex Hread t1 Hagent sent.
  pose proof (login_call_run w (saTokenPath w options) (saRole w options) v t)
    as Hrun.
  cbv zeta in Hrun. rewrite Hread in Hrun. fold t1 in Hrun.
  destruct (getHttpsAgent_keeps w v t1) as (_ & _ & Hnet).
  destruct (getHttpsAgent w v t1) as [o1 v1 t2 tr] eqn:Eg.
  cbn [outcome trace] in Hagent, Hnet |- *. subst o1.
  fold (login_url (baseUrl v)) in sent. fold sent in Hrun.
  destruct (axios_post w (login_url (baseUrl v))
              (mkLoginBody contents (saRole w options)) agent)
    as [response|e] eqn:Ep.
  - assert (Hout : outcome (login_call w (saTokenPath w options)
                              (saRole w options) v t) = Return response)
      by (rewrite Hrun; reflexivity).
    rewrite (kubernetes_resolved w c options v t response Hex Hout).
    rewrite Hrun. cbn [outcome vault clock trace].
    exists (trace (handle_response c response v1
                     (t2 + Z.of_N (elapsed w sent)))).
    assert (Hh : count is_network_call
                   (trace (handle_response c response v1
                             (t2 + Z.of_N (elapsed w sent)))) = 0%nat).
    { destruct (truthy (response_token response)) eqn:E.
      - unfold truthy in E.
        destruct (response_token response) as [tok|] eqn:Et; [|discriminate].
        rewrite (handle_response_recognized c response tok _ _ Et);
          [reflexivity | intros ->; discriminate].
      - rewrite (handle_response_unrecognized c response _ _ E). reflexivity. }
    split; [|split; [exact Hh|]].
    + apply trace_shape.
    + rewrite trace_shape, count_cons, count_app, count_cons, Hnet, Hh.
      reflexivity.
  - assert (Hout : outcome (login_call w (saTokenPath w options)
                              (saRole w options) v t) = Throw (External e))
      by (rewrite Hrun; reflexivity).
    rewrite (kubernetes_rejected w c options v t (External e) Hex Hout).
    rewrite Hrun. cbn [outcome vault clock trace].
    eexists. split; [|split].
    + apply trace_shape.
    + reflexivity.
    + rewrite trace_shape, count_cons, count_app, count_cons, Hnet.
      reflexivity.
Qed.

Lemma login_posts_credentials_witness :
  exists rest,
    trace (kubernetes sample_world (sample_client returning_handler) no_options
             sample_vault 1000)
    = EvReadFile "/var/run/secrets/kubernetes.io/serviceaccount/token"
      :: [] ++ EvPost "https://vault:8200/v1/auth/kubernetes/login"
                      (mkLoginBody "jwt-abc" "blockchain")
                      (mkAgent (Some false) None) :: rest
    /\ count is_network_call rest = 0%nat.
Proof.
  destruct (login_posts_credentials sample_world
              (sample_client returning_handler) no_options sample_vault 1000
              "jwt-abc" (mkAgent (Some false) None) eq_refl eq_refl eq_refl)
    as (rest & Ht & Hn & _).
  exists rest. split; [exact Ht | exact Hn].
Defined.

(** X9.  A file that exists but cannot be read during login, be it the
    credential file or the CA file needed for the agent, does not escape
    as a file error: the strategy hands a token-refresh error to the
    error handler, posts nothing, and leaves the stored token and expiry
    as they were. *)
Theorem login_read_failure_is_routed (w : World) (c : Client)
    (options : AuthOptions) (v : Vault) (t : Z) (e : IoError) :
  existsSync w (saTokenPath w options) = true ->
  readFile w (saTokenPath w options) = Reject e
  \/ ((exists contents, readFile w (saTokenPath w options) = Resolve contents)
      /\ httpsAgent v = None
      /\ ignoreSslCertCheck v = false
      /\ readFile w (sslCertPath v) = Reject e) ->
  let r := kubernetes w c options v t in
  let err := TokenRefreshError (baseUrl v +:+ "/auth/kubernetes/login")
                               (External e) in
  outcome r = after_policy c err v
  /\ count is_handler_call (trace r) = 1%nat
  /\ count is_network_call (trace r) = 0%nat
  /\ token (vault r) = token v
  /\ tokenExpiresAt (vault r) = tokenExpiresAt v.
Proof.
  intros Hex Hfail r err. subst r.
  pose proof (login_call_run w (saTokenPath w options) (saRole w options) v t)
    as Hrun.
  cbv zeta in Hrun.
  assert (Hcase : exists tr,
    login_call w (saTokenPath w options) (saRole w options) v t
    = mkRun (Throw (External e)) v
            (clock (login_call w (saTokenPath w options) (saRole w options) v t))
            tr
    /\ count is_handler_call tr = 0%nat
    /\ count is_network_call tr = 0%nat).
  { destruct Hfail as [Hr | ((contents & Hr) & Ha & Hi & Hc)].
    - rewrite Hrun, Hr. eexists. repeat split.
    - rewrite Hrun, Hr.
      pose proof (getHttpsAgent_fresh w v
                    (t + Z.of_N (elapsed w (EvReadFile (saTokenPath w options))))
                    Ha) as Hg.
      rewrite Hi, Hc in Hg. cbv zeta in Hg. rewrite Hg.
      eexists. repeat split. }
  destruct Hcase as (tr & Hlc & Hh & Hn).
  assert (Hout : outcome (login_call w (saTokenPath w options)
                            (saRole w options) v t) = Throw (External e))
    by (rewrite Hlc; reflexivity).
  rewrite (kubernetes_rejected w c options v t (External e) Hex Hout).
  rewrite Hlc. cbn [outcome vault clock trace].
  rewrite !count_app, Hh, Hn. repeat split.
Qed.

Lemma login_read_failure_is_routed_witness :
  let r := kubernetes unreadable (sample_client returning_handler) no_options
             sample_vault 1000 in
  outcome r = Return (VString "stale")
  /\ count is_handler_call (trace r) = 1%nat
  /\ count is_network_call (trace r) = 0%nat.
Proof.
  destruct (login_read_failure_is_routed unreadable
              (sample_client returning_handler) no_options sample_vault 1000
              denied eq_refl (or_introl eq_refl)) as (Ho & Hh & Hn & _).
  split; [exact Ho|]. split; [exact Hh | exact Hn].
Defined.

(** ** The life of a renewed token *)

(** The state a successful login leaves. *)
Lemma kubernetes_success (w : World) (c : Client) (options : AuthOptions)
    (v : Vault) (t : Z) (response : LoginResponse) (tok : string) :
  existsSync w (saTokenPath w options) = true ->
  let r0 := login_call w (saTokenPath w options) (saRole w options) v t in
  outcome r0 = Return response ->
  response_token response = Some tok ->
  tok <> "" ->
  kubernetes w c options v t =
  mkRun (Return (VString tok))
        (set_tokenExpiresAt
           (jsadd (Num (clock r0))
                  (jsmul (to_number (response_lease response)) (Num 1000)))
           (set_token tok (vault r0)))
        (clock r0) (trace r0).
Proof.
  intros Hex r0 Hout Htok Hne.
  rewrite (kubernetes_resolved w c options v t response Hex Hout). fold r0.
  rewrite (handle_response_recognized c response tok _ _ Htok Hne).
  cbn [outcome vault clock trace]. rewrite app_nil_r. reflexivity.
Qed.

(** X10.  After a successful login with lease [lease], the new token is
    served from the cache, with no further login, at every clock reading
    more than 30 s before the new expiry, and at no later one. *)
Theorem renewed_token_is_cached (w : World) (c : Client) (options : AuthOptions)
    (v : Vault) (t : Z) (response : LoginResponse) (tok : string) (lease : Z) :
  existsSync w (saTokenPath w options) = true ->
  outcome (login_call w (saTokenPath w options) (saRole w options) v t)
    = Return response ->
  response_token response = Some tok ->
  tok <> "" ->
  response_lease response = Some lease ->
  let r := kubernetes w c options v t in
  forall w' t',
    (t' < clock r + lease * 1000 - 30 * 1000 ->
       getToken w' c (vault r) t' = cache_hit (vault r) t'
       /\ outcome (getToken w' c (vault r) t') = Return (VString tok))
    /\ (clock r + lease * 1000 - 30 * 1000 <= t' ->
          getToken w' c (vault r) t' = auth w' c (vault r) t').
Proof.
  intros Hex Hout Htok Hne Hlease r w' t'. subst r.
  rewrite (kubernetes_success w c options v t response tok Hex Hout Htok Hne).
  rewrite Hlease.
  cbn [outcome vault clock trace to_number jsmul jsadd].
  set (r0 := login_call w (saTokenPath w options) (saRole w options) v t).
  set (v' := set_tokenExpiresAt (Num (clock r0 + lease * 1000))
               (set_token tok (vault r0))).
  split.
  - intros Hlt.
    assert (Hf : fresh v' t').
    { exists (clock r0 + lease * 1000). split; [reflexivity | lia]. }
    rewrite (getToken_hit w' c v' t' Hf). split; reflexivity.
  - intros Hge. apply getToken_miss.
    intros (e & He & Hgt). injection He as <-. lia.
Qed.

Lemma renewed_token_is_cached_witness :
  let c := sample_client returning_handler in
  let r := kubernetes sample_world c no_options sample_vault 1000 in
  outcome (getToken refusing c (vault r) 3571004) = Return (VString "tok-1")
  /\ trace (getToken refusing c (vault r) 3571004) = []
  /\ getToken refusing c (vault r) 3571005 = auth refusing c (vault r) 3571005.
Proof.
  assert (Hne : "tok-1" <> "") by discriminate.
  pose proof (renewed_token_is_cached sample_world
                (sample_client returning_handler) no_options sample_vault 1000
                sample_response "tok-1" 3600 eq_refl eq_refl eq_refl Hne
                eq_refl) as H.
  cbv zeta in H.
  destruct (H refusing 3571004) as [Hhit _].
  destruct (H refusing 3571005) as [_ Hmiss].
  destruct Hhit as (Heq & Ho); [reflexivity|].
  split; [exact Ho|]. split; [rewrite Heq; reflexivity|].
  apply Hmiss. discriminate.
Defined.

(** X11.  A lease of 30 seconds or less is never cached: after such a
    login every [getToken] from the moment of the update on calls the
    strategy again. *)
Theorem short_lease_is_never_cached (w : World) (c : Client)
    (options : AuthOptions) (v : Vault) (t : Z) (response : LoginResponse)
    (tok : string) (lease : Z) :
  existsSync w (saTokenPath w options) = true ->
  outcome (login_call w (saTokenPath w options) (saRole w options) v t)
    = Return response ->
  response_token response = Some tok ->
  tok <> "" ->
  response_lease response = Some lease ->
  lease <= 30 ->
  let r := kubernetes w c options v t in
  forall w' t', clock r <= t' ->
    ~ fresh (vault r) t'
    /\ getToken w' c (vault r) t' = auth w' c (vault r) t'.
Proof.
  intros Hex Hout Htok Hne Hlease Hshort r w' t' Hlater. subst r.
  revert Hlater.
  rewrite (kubernetes_success w c options v t response tok Hex Hout Htok Hne).
  rewrite Hlease.
  cbn [outcome vault clock trace to_number jsmul jsadd]. intros Hlater.
  assert (Hstale : ~ fresh
            (set_tokenExpiresAt
               (Num (clock (login_call w (saTokenPath w options)
                              (saRole w options) v t) + lease * 1000))
               (set_token tok
                  (vault (login_call w (saTokenPath w options)
                            (saRole w options) v t)))) t').
  { intros (e & He & Hgt). injection He as <-. lia. }
  split; [exact Hstale | apply getToken_miss, Hstale].
Qed.

Lemma short_lease_is_never_cached_witness :
  let c := sample_client returning_handler in
  let r := kubernetes (answering short_lease_response) c no_options
             sample_vault 1000 in
  token (vault r) = "tok-3"
  /\ ~ fresh (vault r) 1005
  /\ getToken sample_world c (vault r) 1005 = auth sample_world c (vault r) 1005.
Proof.
  assert (Hne : "tok-3" <> "") by discriminate.
  assert (Hshort : 20 <= 30) by discriminate.
  pose proof (short_lease_is_never_cached (answering short_lease_response)
                (sample_client returning_handler) no_options sample_vault 1000
                short_lease_response "tok-3" 20 eq_refl eq_refl eq_refl Hne
                eq_refl Hshort) as H.
  cbv zeta in H.
  destruct (H sample_world 1005) as (Hs & Hm); [discriminate|].
  split; [reflexivity|]. split; [exact Hs | exact Hm].
Defined.

(** X12.  A login response that carries a token but no [lease_duration]
    stores the token with expiry NaN; from then on no clock reading makes
    the token fresh, so every [getToken] calls the strategy again. *)
Theorem missing_lease_is_never_cached (w : World) (c : Client)
    (options : AuthOptions) (v : Vault) (t : Z) (response : LoginResponse)
    (tok : string) :
  existsSync w (saTokenPath w options) = true ->
  outcome (login_call w (saTokenPath w options) (saRole w options) v t)
    = Return response ->
  response_token response = Some tok ->
  tok <> "" ->
  response_lease response = None ->
  let r := kubernetes w c options v t in
  outcome r = Return (VString tok)
  /\ token (vault r) = tok
  /\ tokenExpiresAt (vault r) = NaN
  /\ (forall w' t',
        ~ fresh (vault r) t'
        /\ getToken w' c (vault r) t' = auth w' c (vault r) t').
Proof.
  intros Hex Hout Htok Hne Hlease r. subst r.
  rewrite (kubernetes_success w c options v t response tok Hex Hout Htok Hne).
  rewrite Hlease.
  cbn [outcome vault clock trace to_number jsmul jsadd
       token tokenExpiresAt set_tokenExpiresAt set_token].
  split; [reflexivity|]. split; [reflexivity|]. split; [reflexivity|].
  intros w' t'.
  assert (Hstale : forall v', tokenExpiresAt v' = NaN -> ~ fresh v' t').
  { intros v' Hn (e & He & _). rewrite Hn in He. discriminate. }
  split.
  - apply Hstale. reflexivity.
  - apply getToken_miss, Hstale. reflexivity.
Qed.

Lemma missing_lease_is_never_cached_witness :
  let c := sample_client returning_handler in
  let r := kubernetes (answering no_lease_response) c no_options
             sample_vault 1000 in
  token (vault r) = "tok-2"
  /\ tokenExpiresAt (vault r) = NaN
  /\ getToken sample_world c (vault r) 0 = auth sample_world c (vault r) 0.
Proof.
  assert (Hne : "tok-2" <> "") by discriminate.
  destruct (missing_lease_is_never_cached (answering no_lease_response)
              (sample_client returning_handler) no_options sample_vault 1000
              no_lease_response "tok-2" eq_refl eq_refl eq_refl Hne eq_refl)
    as (_ & Ht & He & Hall).
  split; [exact Ht|]. split; [exact He|].
  exact (proj2 (Hall sample_world 0)).
Defined.

(** ** Requests that need a login *)

(** X13.  A request made with a stale token and the built-in strategy
    logs in first and then sends the data request carrying the token the
    login returned: the login post comes before the data request, and,
    unless the caller set the header, "X-Vault-Token" is the new token. *)
Theorem request_after_login_carries_new_token (w : World) (c : Client)
    (params : RequestParams) (v : Vault) (t : Z) (agent : Agent)
    (response : LoginResponse) (tok : string) :
  authMethod c = AuthName "kubernetes" ->
  let r1 := getHttpsAgent w v t in
  outcome r1 = Return agent ->
  ~ fresh (vault r1) (clock r1) ->
  existsSync w (saTokenPath w (authOptions c)) = true ->
  let r0 := login_call w (saTokenPath w (authOptions c))
              (saRole w (authOptions c)) (vault r1) (clock r1) in
  outcome r0 = Return response ->
  response_token response = Some tok ->
  tok <> "" ->
  default ∅ (p_headers params) !! "X-Vault-Token" = None ->
  exists sent headers rest,
    trace (request w c params v t)
    = trace r1 ++ (EvAuth :: trace r0) ++ EvRequest sent :: rest
    /\ p_headers sent = Some headers
    /\ headers !! "X-Vault-Token" = Some (VString tok)
    /\ token (vault (request w c params v t)) = tok.
Proof.
  intros Hm r1 H1 Hstale Hex r0 Hout Htok Hne Hcaller.
  assert (Hs : strategy w c = Some (kubernetes w c (authOptions c))).
  { unfold strategy. rewrite Hm. reflexivity. }
  assert (H2 : getToken w c (vault r1) (clock r1)
               = mkRun (Return (VString tok))
                   (set_tokenExpiresAt
                      (jsadd (Num (clock r0))
                         (jsmul (to_number (response_lease response)) (Num 1000)))
                      (set_token tok (vault r0)))
                   (clock r0) (EvAuth :: trace r0)).
  { rewrite (getToken_miss w c _ _ Hstale), (auth_strategy w c _ _ _ Hs).
    rewrite (kubernetes_success w c (authOptions c) (vault r1) (clock r1)
               response tok Hex Hout Htok Hne).
    reflexivity. }
  pose proof (request_run w c params v t agent (VString tok) H1) as Hrun.
  cbv zeta in Hrun. fold r1 in Hrun. rewrite H2 in Hrun.
  specialize (Hrun eq_refl). cbn [outcome vault clock trace] in Hrun.
  exists (outgoing (baseUrl v) agent (VString tok) params).
  exists (merge_headers (VString tok) (p_headers params)).
  assert (Hh : merge_headers (VString tok) (p_headers params) !! "X-Vault-Token"
               = Some (VString tok)).
  { rewrite merge_headers_token, Hcaller. reflexivity. }
  destruct (axios_request w (outgoing (baseUrl v) agent (VString tok) params))
    as [resp|e]; rewrite Hrun; cbn [outcome vault clock trace].
  - exists []. repeat split; assumption.
  - eexists. split; [reflexivity|]. repeat split; assumption.
Qed.

Lemma request_after_login_carries_new_token_witness :
  exists sent headers rest,
    trace (request sample_world (sample_client returning_handler) get_secret
             sample_vault 1000)
    = [] ++ (EvAuth
             :: trace (login_call sample_world
                         (saTokenPath sample_world no_options)
                         (saRole sample_world no_options)
                         (vault (getHttpsAgent sample_world sample_vault 1000))
                         1000))
         ++ EvRequest sent :: rest
    /\ p_headers sent = Some headers
    /\ headers !! "X-Vault-Token" = Some (VString "tok-1").
Proof.
  assert (Hstale : ~ fresh (vault (getHttpsAgent sample_world sample_vault 1000))
                     (clock (getHttpsAgent sample_world sample_vault 1000))).
  { intros (e & He & Hgt). injection He as <-. vm_compute in Hgt. discriminate. }
  assert (Hne : "tok-1" <> "") by discriminate.
  destruct (request_after_login_carries_new_token sample_world
              (sample_client returning_handler) get_secret sample_vault 1000
              (mkAgent (Some false) None) sample_response "tok-1"
              eq_refl eq_refl Hstale eq_refl eq_refl eq_refl Hne eq_refl)
    as (sent & headers & rest & Ht & Hp & Hh & _).
  exists sent, headers, rest.
  split; [exact Ht|]. split; [exact Hp | exact Hh].
Defined.

Lemma getHttpsAgent_no_data_request (w : World) (v : Vault) (t : Z) :
  count is_data_request (trace (getHttpsAgent w v t)) = 0%nat.
Proof.
  destruct (httpsAgent v) as [a|] eqn:Ha.
  - rewrite (getHttpsAgent_cached w v t a Ha). reflexivity.
  - rewrite (getHttpsAgent_fresh w v t Ha).
    destruct (ignoreSslCertCheck v); [reflexivity|].
    destruct (readFile w (sslCertPath v)); reflexivity.
Qed.

Lemma login_call_no_data_request (w : World) (path role : string)
    (v : Vault) (t : Z) :
  count is_data_request (trace (login_call w path role v t)) = 0%nat.
Proof.
  rewrite login_call_run. cbv zeta.
  destruct (readFile w path) as [contents|e]; [|reflexivity].
  pose proof (getHttpsAgent_no_data_request w v
                (t + Z.of_N (elapsed w (EvReadFile path)))) as Hg.
  destruct (getHttpsAgent w v _) as [[agent|e] v1 t2 tr];
    cbn [trace] in Hg |- *;
    rewrite ?count_cons, ?count_app, ?count_cons, Hg; reflexivity.
Qed.

(** X14.  When the login fails during a request, the policy decides
    whether the request goes out.  If the error handler throws, [request]
    throws the same and no data request is sent.  If it returns, the data
    request is sent all the same, carrying the stale stored token. *)
Theorem request_after_failed_login (w : World) (c : Client)
    (params : RequestParams) (v : Vault) (t : Z) (agent : Agent) (err : Error) :
  authMethod c = AuthName "kubernetes" ->
  let r1 := getHttpsAgent w v t in
  outcome r1 = Return agent ->
  ~ fresh (vault r1) (clock r1) ->
  existsSync w (saTokenPath w (authOptions c)) = true ->
  let r0 := login_call w (saTokenPath w (authOptions c))
              (saRole w (authOptions c)) (vault r1) (clock r1) in
  login_failure r0 (vault r1) err ->
  let r := request w c params v t in
  (forall e, errorHandler c err = Throw e ->
     outcome r = Throw e
     /\ trace r = trace r1 ++ EvAuth :: trace r0 ++ [EvErrorHandler err]
     /\ count is_data_request (trace r) = 0%nat)
  /\ (forall x, errorHandler c err = Return x ->
        exists rest,
          trace r = trace r1 ++ (EvAuth :: trace r0 ++ [EvErrorHandler err])
                    ++ EvRequest (outgoing (baseUrl v) agent
                                    (VString (token v)) params) :: rest).
Proof.
  intros Hm r1 H1 Hstale Hex r0 Hfail r. subst r.
  assert (Hs : strategy w c = Some (kubernetes w c (authOptions c))).
  { unfold strategy. rewrite Hm. reflexivity. }
  assert (Htok : token (vault r1) = token v)
    by (apply (getHttpsAgent_keeps w v t)).
  assert (H2 : getToken w c (vault r1) (clock r1)
               = mkRun (after_policy c err (vault r1)) (vault r0) (clock r0)
                       (EvAuth :: trace r0 ++ [EvErrorHandler err])).
  { rewrite (getToken_miss w c _ _ Hstale), (auth_strategy w c _ _ _ Hs).
    rewrite (kubernetes_failure w c (authOptions c) (vault r1) (clock r1) err
               Hex Hfail).
    reflexivity. }
  split.
  - intros e He.
    assert (H2o : outcome (getToken w c (vault r1) (clock r1)) = Throw e).
    { rewrite H2. unfold after_policy. rewrite He. reflexivity. }
    destruct (proj2 (request_stops_early w c params v t e) agent H1 H2o)
      as (Ho & Ht).
    fold r1 in Ht. rewrite H2 in Ht. cbn [trace] in Ht.
    split; [exact Ho|]. split; [exact Ht|].
    rewrite Ht, count_app, count_cons, count_app.
    unfold r1, r0.
    rewrite getHttpsAgent_no_data_request, login_call_no_data_request.
    reflexivity.
  - intros x Hx.
    assert (H2o : outcome (getToken w c (vault r1) (clock r1))
                  = Return (VString (token v))).
    { rewrite H2. unfold after_policy. rewrite Hx, Htok. reflexivity. }
    pose proof (request_run w c params v t agent (VString (token v)) H1 H2o)
      as Hrun.
    cbv zeta in Hrun. fold r1 in Hrun. rewrite H2 in Hrun.
    cbn [outcome vault clock trace] in Hrun.
    destruct (axios_request w _) as [resp|e]; rewrite Hrun;
      cbn [outcome vault clock trace]; eexists; reflexivity.
Qed.

Lemma request_after_failed_login_witness :
  exists rest,
    trace (request refusing (sample_client returning_handler) get_secret
             sample_vault 1000)
    = [] ++ (EvAuth
             :: trace (login_call refusing
                         (saTokenPath refusing no_options)
                         (saRole refusing no_options)
                         (vault (getHttpsAgent refusing sample_vault 1000)) 1000)
             ++ [EvErrorHandler
                   (TokenRefreshError "https://vault:8200/v1/auth/kubernetes/login"
                      (External forbidden))])
         ++ EvRequest (outgoing "https://vault:8200/v1"
                         (mkAgent (Some false) None) (VString "stale")
                         get_secret) :: rest.
Proof.
  assert (Hstale : ~ fresh (vault (getHttpsAgent refusing sample_vault 1000))
                     (clock (getHttpsAgent refusing sample_vault 1000))).
  { intros (e & He & Hgt). injection He as <-. vm_compute in Hgt. discriminate. }
  destruct (request_after_failed_login refusing
              (sample_client returning_handler) get_secret sample_vault 1000
              (mkAgent (Some false) None)
              (TokenRefreshError "https://vault:8200/v1/auth/kubernetes/login"
                 (External forbidden))
              eq_refl eq_refl Hstale eq_refl eq_refl) as (_ & Hret).
  exact (Hret (VString "fallback") eq_refl).
Defined.

(** ** Defaults at construction *)

Lemma or_else_nonempty (o : option string) (d : string) :
  d <> "" -> or_else o d <> "".
Proof.
  intros Hd. unfold or_else. destruct o as [s|]; [|exact Hd].
  destruct (String.eqb s "") eqn:E; [exact Hd|].
  apply String.eqb_neq, E.
Qed.

Lemma or_else_cases (o : option string) (d : string) :
  (o = None \/ o = Some "") /\ or_else o d = d
  \/ exists s, o = Some s /\ s <> "" /\ or_else o d = s.
Proof.
  unfold or_else. destruct o as [s|]; [|left; split; [left|]; reflexivity].
  destruct (String.eqb s "") eqn:E.
  - apply String.eqb_eq in E. subst s. left. split; [right|]; reflexivity.
  - apply String.eqb_neq in E. right. exists s. repeat split. exact E.
Qed.

Lemma constructor_unsupported (w : World) (config : Config) (now : Z)
    (name : string) :
  unsupported w (resolved_authMethod w config) = Some name ->
  constructor w config now = Throw (UnsupportedAuthMethod name).
Proof. intros H. unfold constructor. rewrite H. reflexivity. Qed.

(** X15.  A construction that leaves the base URL out never fails with
    the invalid-base-URL error, whatever the environment holds: an unset
    or empty [VAULT_BASE_URL] gives the built-in address, and any other
    value is used as the base URL. *)
Theorem omitted_baseUrl_is_never_invalid (w : World) (config : Config) (now : Z) :
  cfg_baseUrl config = None ->
  (forall url, constructor w config now <> Throw (InvalidBaseUrl url))
  /\ (process_env w "VAULT_BASE_URL" = None
      \/ process_env w "VAULT_BASE_URL" = Some "" ->
      forall c v, constructor w config now = Return (c, v) ->
        baseUrl v = "https://vault.nonprod.manageteam.internal:8200/v1")
  /\ (forall s c v, process_env w "VAULT_BASE_URL" = Some s -> s <> "" ->
        constructor w config now = Return (c, v) ->
        baseUrl v = normalize_baseUrl s).
Proof.
  intros Hcfg.
  assert (Hres : resolved_baseUrl w config = defaults.getBaseUrl w).
  { unfold resolved_baseUrl. rewrite Hcfg. reflexivity. }
  assert (Hne : resolved_baseUrl w config <> "").
  { rewrite Hres. apply or_else_nonempty. discriminate. }
  split; [|split].
  - intros url H. unfold constructor in H.
    destruct (unsupported w _); [discriminate|].
    destruct (negb _ && negb _); [discriminate|].
    apply String.eqb_neq in Hne. rewrite Hne in H. discriminate.
  - intros Henv c v Hc.
    apply constructor_Return in Hc as (_ & -> & _). cbn [baseUrl].
    rewrite Hres. unfold defaults.getBaseUrl.
    destruct Henv as [-> | ->]; reflexivity.
  - intros s c v Henv Hs Hc.
    apply constructor_Return in Hc as (_ & -> & _). cbn [baseUrl].
    rewrite Hres. unfold defaults.getBaseUrl. rewrite Henv. unfold or_else.
    apply String.eqb_neq in Hs. rewrite Hs. reflexivity.
Qed.

Lemma omitted_baseUrl_is_never_invalid_witness :
  let w := with_env sample_world
             (fun name => if String.eqb name "VAULT_BASE_URL"
                          then Some "" else None) in
  let v := mkVault "https://vault.nonprod.manageteam.internal:8200/v1"
             "/var/run/secrets/vault/ca.crt" false None "" (Num 0) in
  constructor w empty_config 1000 = Return (static_client, v)
  /\ baseUrl v = "https://vault.nonprod.manageteam.internal:8200/v1".
Proof.
  destruct (omitted_baseUrl_is_never_invalid
              (with_env sample_world
                 (fun name => if String.eqb name "VAULT_BASE_URL"
                              then Some "" else None))
              empty_config 1000 eq_refl) as (_ & Hdef & _).
  split; [reflexivity|].
  exact (Hdef (or_intror eq_refl) static_client
           (mkVault "https://vault.nonprod.manageteam.internal:8200/v1"
              "/var/run/secrets/vault/ca.crt" false None "" (Num 0))
           eq_refl).
Defined.

(** X16.  A construction that leaves the auth method out takes it from
    [VAULT_AUTH_METHOD]: it fails with the unsupported-auth-method error
    for [name] exactly when that variable holds [name], a non-empty
    string other than "kubernetes". *)
Theorem omitted_authMethod_follows_env (w : World) (config : Config) (now : Z)
    (name : string) :
  cfg_authMethod config = None ->
  (constructor w config now = Throw (UnsupportedAuthMethod name)
   <-> process_env w "VAULT_AUTH_METHOD" = Some name
       /\ name <> "" /\ name <> "kubernetes").
Proof.
  intros Hcfg.
  assert (Hres : resolved_authMethod w config
                 = AuthName (defaults.getAuthMethod w)).
  { unfold resolved_authMethod. rewrite Hcfg. reflexivity. }
  split.
  - intros H. unfold constructor in H. rewrite Hres in H.
    destruct (unsupported w (AuthName (defaults.getAuthMethod w)))
      as [n|] eqn:Eu.
    + injection H as ->.
      apply unsupported_Some in Eu as ([= Hn] & Hk).
      unfold defaults.getAuthMethod in Hn.
      destruct (or_else_cases (process_env w "VAULT_AUTH_METHOD") "kubernetes")
        as [(_ & Hd) | (s & Hs & Hne & Hd)].
      * rewrite Hd in Hn. congruence.
      * rewrite Hd in Hn. subst s. repeat split; assumption.
    + destruct (negb _ && negb _); [discriminate|].
      destruct (String.eqb _ ""); discriminate.
  - intros (Henv & Hne & Hk).
    apply constructor_unsupported. rewrite Hres.
    unfold defaults.getAuthMethod, or_else. rewrite Henv.
    apply String.eqb_neq in Hne. rewrite Hne.
    unfold unsupported. rewrite (proj2 (authMethods_None w name) Hk).
    reflexivity.
Qed.

Lemma omitted_authMethod_follows_env_witness :
  constructor (with_env sample_world
                 (fun name => if String.eqb name "VAULT_AUTH_METHOD"
                              then Some "approle" else None))
              empty_config 1000
  = Throw (UnsupportedAuthMethod "approle").
Proof.
  apply (omitted_authMethod_follows_env
           (with_env sample_world
              (fun name => if String.eqb name "VAULT_AUTH_METHOD"
                           then Some "approle" else None))
           empty_config 1000 "approle" eq_refl).
  repeat split; discriminate.
Defined.

(** X17.  The constructor reports one error, in a fixed order.  An
    unsupported auth method is reported whatever else is wrong; the
    missing certificate file is reported exactly when the auth method is
    fine, the file is missing and the check is on; the invalid base URL
    is reported exactly when the first two checks pass and the base URL
    is empty. *)
Theorem constructor_error_order (w : World) (config : Config) (now : Z) :
  (forall name,
     unsupported w (resolved_authMethod w config) = Some name ->
     constructor w config now = Throw (UnsupportedAuthMethod name))
  /\ (forall path,
        constructor w config now = Throw (SslCertNotFound path)
        <-> unsupported w (resolved_authMethod w config) = None
            /\ path = resolved_sslCertPath w config
            /\ existsSync w path = false
            /\ resolved_ignoreSslCertCheck w config = false)
  /\ (forall url,
        constructor w config now = Throw (InvalidBaseUrl url)
        <-> unsupported w (resolved_authMethod w config) = None
            /\ (existsSync w (resolved_sslCertPath w config) = true
                \/ resolved_ignoreSslCertCheck w config = true)
            /\ url = ""
            /\ resolved_baseUrl w config = "").
Proof.
  split; [intros name; apply constructor_unsupported|].
  unfold constructor.
  destruct (unsupported w (resolved_authMethod w config)) as [n|] eqn:Eu.
  { split; intros x; (split; [discriminate | intros (H & _); discriminate]). }
  assert (Hcheck : negb (existsSync w (resolved_sslCertPath w config))
                   && negb (resolved_ignoreSslCertCheck w config) = true
                   <-> existsSync w (resolved_sslCertPath w config) = false
                       /\ resolved_ignoreSslCertCheck w config = false).
  { destruct (existsSync w _), (resolved_ignoreSslCertCheck w config);
      cbn; split; try discriminate; try (intros (H1 & H2); discriminate);
      intros _; split; reflexivity. }
  destruct (negb (existsSync w (resolved_sslCertPath w config))
            && negb (resolved_ignoreSslCertCheck w config)) eqn:Ec.
  - destruct (proj1 Hcheck eq_refl) as (Hex & Hig).
    split.
    + intros path. split.
      * intros [= <-]. repeat split; assumption.
      * intros (_ & -> & _). reflexivity.
    + intros url. split; [discriminate|].
      intros (_ & [H | H] & _); congruence.
  - assert (Hpass : existsSync w (resolved_sslCertPath w config) = true
                    \/ resolved_ignoreSslCertCheck w config = true).
    { destruct (existsSync w _); [left; reflexivity|].
      destruct (resolved_ignoreSslCertCheck w config); [right; reflexivity|].
      discriminate. }
    assert (Hnot : ~ (existsSync w (resolved_sslCertPath w config) = false
                      /\ resolved_ignoreSslCertCheck w config = false)).
    { intros H. apply Hcheck in H. discriminate. }
    destruct (String.eqb (resolved_baseUrl w config) "") eqn:Eb.
    + apply String.eqb_eq in Eb. split.
      * intros path. split; [discriminate|].
        intros (_ & -> & Hf & Hg). exfalso. apply Hnot. split; assumption.
      * intros url. split.
        -- intros [= <-]. repeat split; assumption.
        -- intros (_ & _ & -> & _). rewrite Eb. reflexivity.
    + apply String.eqb_neq in Eb. split.
      * intros path. split; [discriminate|].
        intros (_ & -> & Hf & Hg). exfalso. apply Hnot. split; assumption.
      * intros url. split; [discriminate|].
        intros (_ & _ & _ & Hb). contradiction.
Qed.

(** X18.  A client constructed without an error handler throws every
    error it routes, wrapped as a module error; so a rejected data
    request makes [request] throw, with the request error inside. *)
Theorem default_policy_rethrows (w : World) (config : Config) (now : Z)
    (c : Client) (v0 : Vault) :
  cfg_errorHandler config = None ->
  constructor w config now = Return (c, v0) ->
  (forall err, errorHandler c err = Throw (ModuleError err))
  /\ (forall w' params v t agent tok e,
        outcome (getHttpsAgent w' v t) = Return agent ->
        outcome (getToken w' c (vault (getHttpsAgent w' v t))
                   (clock (getHttpsAgent w' v t))) = Return tok ->
        axios_request w' (outgoing (baseUrl v) agent tok params) = Reject e ->
        outcome (request w' c params v t)
        = Throw (ModuleError
                   (RequestError (outgoing (baseUrl v) agent tok params)
                      (External e)
                      (token (vault (getToken w' c
                                       (vault (getHttpsAgent w' v t))
                                       (clock (getHttpsAgent w' v t)))))))).
Proof.
  intros Hcfg Hc.
  apply constructor_Return in Hc as (-> & _).
  rewrite Hcfg. cbn [default errorHandler].
  split; [reflexivity|].
  intros w' params v t agent tok e H1 H2 Hreq.
  rewrite (request_run w' _ params v t agent tok H1 H2), Hreq.
  reflexivity.
Qed.

Lemma default_policy_rethrows_witness :
  outcome (request refusing_data static_client get_secret
             (static_vault "t-123" 2678401000) 2000)
  = Throw (ModuleError
             (RequestError (outgoing "https://vault:8200/v1"
                              (mkAgent (Some false) None) (VString "t-123")
                              get_secret)
                (External forbidden) "t-123")).
Proof.
  destruct (default_policy_rethrows sample_world (static_config "t-123") 1000
              static_client (static_vault "t-123" 2678401000) eq_refl eq_refl)
    as (_ & H).
  exact (H refusing_data get_secret (static_vault "t-123" 2678401000) 2000
           (mkAgent (Some false) None) (VString "t-123") forbidden
           eq_refl eq_refl eq_refl).
Defined.

(** X19.  In a local or test environment a construction that leaves
    [ignoreSslCertCheck] out never fails for a missing certificate file,
    and the client it builds talks through an agent with verification
    switched off, built without reading any file. *)
Theorem local_runs_skip_certificates (w : World) (config : Config) (now : Z) :
  cfg_ignoreSslCertCheck config = None ->
  local_or_test w ->
  (forall path, constructor w config now <> Throw (SslCertNotFound path))
  /\ (forall c v, constructor w config now = Return (c, v) ->
        forall w' t,
          getHttpsAgent w' v t
          = mkRun (Return (mkAgent (Some false) None))
                  (set_httpsAgent (Some (mkAgent (Some false) None)) v) t []).
Proof.
  intros Hcfg Henv.
  assert (Hig : resolved_ignoreSslCertCheck w config = true).
  { unfold resolved_ignoreSslCertCheck. rewrite Hcfg. cbn [default].
    unfold defaults.getIgnoreSslCertCheck, env_is.
    destruct Henv as [-> | ->]; reflexivity. }
  split.
  - intros path H. unfold constructor in H. rewrite Hig in H.
    destruct (unsupported w _); [discriminate|].
    rewrite andb_false_r in H.
    destruct (String.eqb _ ""); discriminate.
  - intros c v Hc w' t.
    apply constructor_Return in Hc as (_ & -> & _). rewrite Hig.
    reflexivity.
Qed.

Lemma local_runs_skip_certificates_witness :
  constructor local_world plain_config 1000
    = Return (static_client, static_vault "" 0)
  /\ getHttpsAgent unreadable (static_vault "" 0) 2000
     = mkRun (Return (mkAgent (Some false) None))
             (set_httpsAgent (Some (mkAgent (Some false) None))
                (static_vault "" 0))
             2000 [].
Proof.
  destruct (local_runs_skip_certificates local_world plain_config 1000 eq_refl
              (or_introl eq_refl)) as (_ & H).
  split; [reflexivity|].
  exact (H static_client (static_vault "" 0) eq_refl unreadable 2000).
Defined.

Lemma strip_trailing_slash_id (s : string) :
  ends_with_slash s = false -> strip_trailing_slash s = s.
Proof.
  induction s as [|ch s IH]; [reflexivity|].
  destruct s as [|ch' s'].
  - simpl. intros ->. reflexivity.
  - intros H. change (ends_with_slash (String ch' s') = false) in H.
    change (String ch (strip_trailing_slash (String ch' s'))
            = String ch (String ch' s')).
    rewrite (IH H). reflexivity.
Qed.

(** X20.  Storing is repeatable: a stored base URL is stored unchanged
    when used as the base URL of another construction, provided what
    follows "https://" in it does not end in a slash. *)
Theorem stored_baseUrl_is_a_fixed_point (url : string) :
  ends_with_slash (strip_trailing_slash (strip_scheme url)) = false ->
  normalize_baseUrl (normalize_baseUrl url) = normalize_baseUrl url.
Proof.
  intros H. unfold normalize_baseUrl.
  rewrite strip_scheme_https, (strip_trailing_slash_id _ H). reflexivity.
Qed.

Lemma stored_baseUrl_is_a_fixed_point_witness :
  normalize_baseUrl (normalize_baseUrl "http://vault:8200/v1/")
  = normalize_baseUrl "http://vault:8200/v1/".
Proof.
  apply stored_baseUrl_is_a_fixed_point. reflexivity.
Defined.

(** ** What the methods leave alone *)

Lemma preserves_unchanged {A} (P : Vault -> Prop) (m : M A) :
  (forall v t, vault (m v t) = v) -> preserves P m.
Proof. intros H v t Hp. rewrite H. exact Hp. Qed.

Lemma preserves_bind {A B} (P : Vault -> Prop) (m : M A) (k : A -> M B) :
  preserves P m -> (forall a, preserves P (k a)) -> preserves P (bind m k).
Proof.
  intros Hm Hk v t Hp. unfold bind. specialize (Hm v t Hp).
  destruct (m v t) as [[a|e] v1 t1 tr1]; simpl in *; [|exact Hm].
  specialize (Hk a v1 t1 Hm). destruct (k a v1 t1); exact Hk.
Qed.

Lemma preserves_try_catch {A} (P : Vault -> Prop) (m : M A) (h : Error -> M A) :
  preserves P m -> (forall e, preserves P (h e)) -> preserves P (try_catch m h).
Proof.
  intros Hm Hh v t Hp. unfold try_catch. specialize (Hm v t Hp).
  destruct (m v t) as [[a|e] v1 t1 tr1]; simpl in *; [exact Hm|].
  specialize (Hh e v1 t1 Hm). destruct (h e v1 t1); exact Hh.
Qed.

Lemma preserves_getHttpsAgent (P : Vault -> Prop) (w : World) :
  stable_under_login P -> preserves P (getHttpsAgent w).
Proof.
  intros (_ & _ & Hagent) v t Hp.
  destruct (httpsAgent v) as [a|] eqn:Ha.
  - rewrite (getHttpsAgent_cached w v t a Ha). exact Hp.
  - rewrite (getHttpsAgent_fresh w v t Ha).
    destruct (ignoreSslCertCheck v); [apply Hagent; assumption|].
    destruct (readFile w (sslCertPath v)); [apply Hagent; assumption | exact Hp].
Qed.

Lemma preserves_login_call (P : Vault -> Prop) (w : World) (path role : string) :
  stable_under_login P -> preserves P (login_call w path role).
Proof.
  intros Hs. unfold login_call.
  apply preserves_bind; [apply preserves_unchanged; reflexivity|]. intros url.
  apply preserves_bind; [apply preserves_unchanged; reflexivity|]. intros contents.
  apply preserves_bind; [apply preserves_getHttpsAgent, Hs|]. intros agent.
  apply preserves_unchanged. reflexivity.
Qed.

Lemma preserves_handle_response (P : Vault -> Prop) (c : Client)
    (response : LoginResponse) :
  stable_under_login P -> preserves P (handle_response c response).
Proof.
  intros (Htok & Hexp & _) v t Hp.
  destruct (truthy (response_token response)) eqn:E.
  - unfold truthy in E.
    destruct (response_token response) as [tok|] eqn:Et; [|discriminate].
    rewrite (handle_response_recognized c response tok v t Et).
    + apply Hexp, Htok, Hp.
    + intros ->. discriminate.
  - rewrite (handle_response_unrecognized c response v t E). exact Hp.
Qed.

Lemma preserves_kubernetes (P : Vault -> Prop) (w : World) (c : Client)
    (options : AuthOptions) :
  stable_under_login P -> preserves P (kubernetes w c options).
Proof.
  intros Hs. unfold kubernetes.
  destruct (negb (existsSync w (saTokenPath w options)));
    [apply preserves_unchanged; reflexivity|].
  apply preserves_bind.
  - apply preserves_try_catch.
    + apply preserves_bind; [apply preserves_login_call, Hs|].
      intros; apply preserves_unchanged; reflexivity.
    + intros e.
      apply preserves_bind; [apply preserves_unchanged; reflexivity|]. intros url.
      apply preserves_bind; [apply preserves_unchanged; reflexivity|]. intros _.
      apply preserves_bind; [apply preserves_unchanged; reflexivity|].
      intros tok. apply preserves_unchanged; reflexivity.
  - intros [response|early];
      [apply preserves_handle_response, Hs
      | apply preserves_unchanged; reflexivity].
Qed.

Lemma preserves_auth (P : Vault -> Prop) (w : World) (c : Client) (name : string) :
  authMethod c = AuthName name ->
  stable_under_login P -> preserves P (auth w c).
Proof.
  intros Hm Hs. unfold auth. rewrite Hm. unfold authMethods.
  destruct (String.eqb name "kubernetes");
    [|apply preserves_unchanged; reflexivity].
  apply preserves_bind; [apply preserves_unchanged; reflexivity|]. intros _.
  apply preserves_kubernetes, Hs.
Qed.

Lemma preserves_getToken (P : Vault -> Prop) (w : World) (c : Client)
    (name : string) :
  authMethod c = AuthName name ->
  stable_under_login P -> preserves P (getToken w c).
Proof.
  intros Hm Hs. unfold getToken.
  apply preserves_bind; [apply preserves_unchanged; reflexivity|]. intros expires.
  apply preserves_bind; [apply preserves_unchanged; reflexivity|]. intros now.
  destruct (jsgt _ _).
  - apply preserves_bind; [apply preserves_unchanged; reflexivity|].
    intros; apply preserves_unchanged; reflexivity.
  - apply (preserves_auth P w c name Hm Hs).
Qed.

Lemma preserves_request (P : Vault -> Prop) (w : World) (c : Client)
    (name : string) (params : RequestParams) :
  authMethod c = AuthName name ->
  stable_under_login P -> preserves P (request w c params).
Proof.
  intros Hm Hs. unfold request.
  apply preserves_bind; [apply preserves_unchanged; reflexivity|]. intros base.
  apply preserves_bind; [apply preserves_getHttpsAgent, Hs|]. intros agent.
  apply preserves_bind; [apply (preserves_getToken P w c name Hm Hs)|]. intros tok.
  apply preserves_try_catch.
  - apply preserves_bind; [apply preserves_unchanged; reflexivity|].
    intros; apply preserves_unchanged; reflexivity.
  - intros e.
    apply preserves_bind; [apply preserves_unchanged; reflexivity|].
    intros; apply preserves_unchanged; reflexivity.
Qed.

Lemma after_calls_preserve (P : Vault -> Prop) (c : Client) (name : string)
    (steps : list (World * Call * Z)) (v : Vault) :
  authMethod c = AuthName name ->
  stable_under_login P ->
  P v -> P (after_calls c v steps).
Proof.
  intros Hm Hs. unfold after_calls. revert v.
  induction steps as [|[[w call] t] steps IH]; intros v Hp; [exact Hp|].
  simpl. apply IH. destruct call as [| params | |]; simpl.
  - apply (preserves_getToken P w c name Hm Hs), Hp.
  - apply (preserves_request P w c name params Hm Hs), Hp.
  - apply (preserves_getHttpsAgent P w Hs), Hp.
  - apply (preserves_auth P w c name Hm Hs), Hp.
Qed.

(** X21.  With a built-in strategy, no sequence of [getToken], [request],
    [getHttpsAgent] and [auth] calls, each run to its end before the next
    starts, changes the certificate path or the skip-verification flag,
    and an agent stored before the sequence is still the stored agent
    after it. *)
Theorem configuration_and_agent_are_stable (c : Client) (name : string)
    (v : Vault) (steps : list (World * Call * Z)) :
  authMethod c = AuthName name ->
  sslCertPath (after_calls c v steps) = sslCertPath v
  /\ ignoreSslCertCheck (after_calls c v steps) = ignoreSslCertCheck v
  /\ (forall agent, httpsAgent v = Some agent ->
        httpsAgent (after_calls c v steps) = Some agent).
Proof.
  intros Hm.
  pose (P := fun v' : Vault =>
    sslCertPath v' = sslCertPath v
    /\ ignoreSslCertCheck v' = ignoreSslCertCheck v
    /\ (forall agent, httpsAgent v = Some agent -> httpsAgent v' = Some agent)).
  assert (Hs : stable_under_login P).
  { unfold stable_under_login, P. split; [|split].
    - intros v' s H. exact H.
    - intros v' n H. exact H.
    - intros v' a (H1 & H2 & H3) Hnone. split; [exact H1|]. split; [exact H2|].
      intros agent Ha. specialize (H3 agent Ha). congruence. }
  apply (after_calls_preserve P c name steps v Hm Hs).
  unfold P. repeat split. intros agent Ha. exact Ha.
Qed.

Lemma configuration_and_agent_are_stable_witness :
  let v := vault (getHttpsAgent sample_world checking_vault 1000) in
  let steps := [(unreadable, CallRequest get_secret, 2000);
                (refusing, CallGetToken, 3000);
                (unreadable, CallGetHttpsAgent, 4000)] in
  sslCertPath (after_calls (sample_client returning_handler) v steps) = "/ca.crt"
  /\ httpsAgent (after_calls (sample_client returning_handler) v steps)
     = Some (mkAgent None (Some "jwt-abc")).
Proof.
  destruct (configuration_and_agent_are_stable
              (sample_client returning_handler) "kubernetes"
              (vault (getHttpsAgent sample_world checking_vault 1000))
              [(unreadable, CallRequest get_secret, 2000);
               (refusing, CallGetToken, 3000);
               (unreadable, CallGetHttpsAgent, 4000)] eq_refl)
    as (Hp & _ & Ha).
  split; [exact Hp | exact (Ha _ eq_refl)].
Defined.

(** X22.  A request made with a stored agent and a fresh token does one
    thing: it sends the data request with the stored token.  No file is
    read, no login is made, and no field changes, whether the transport
    answers or fails. *)
Theorem warm_request_is_one_call (w : World) (c : Client)
    (params : RequestParams) (v : Vault) (t : Z) (agent : Agent) :
  httpsAgent v = Some agent ->
  fresh v t ->
  let r := request w c params v t in
  let sent := outgoing (baseUrl v) agent (VString (token v)) params in
  vault r = v
  /\ count is_network_call (trace r) = 1%nat
  /\ count is_auth_call (trace r) = 0%nat
  /\ count is_read_file (trace r) = 0%nat
  /\ exists rest, trace r = EvRequest sent :: rest
                  /\ count is_network_call rest = 0%nat.
Proof.
  intros Ha Hf r sent. subst r.
  pose proof (request_run w c params v t agent (VString (token v))) as Hrun.
  cbv zeta in Hrun.
  rewrite (getHttpsAgent_cached w v t agent Ha) in Hrun.
  cbn [outcome vault clock trace] in Hrun.
  rewrite (getToken_hit w c v t Hf) in Hrun. unfold cache_hit in Hrun.
  cbn [outcome vault clock trace app] in Hrun.
  specialize (Hrun eq_refl eq_refl). fold sent in Hrun.
  destruct (axios_request w sent) as [response|e]; rewrite Hrun;
    cbn [outcome vault clock trace].
  - repeat split. exists []. split; reflexivity.
  - repeat split. eexists. split; reflexivity.
Qed.

Lemma warm_request_is_one_call_witness :
  let v := mkVault "https://vault:8200/v1" "/ca.crt" false
             (Some (mkAgent None (Some "cert"))) "t-9" (Num 100000) in
  let r := request unreadable (sample_client returning_handler) get_secret v 1000 in
  vault r = v
  /\ count is_network_call (trace r) = 1%nat
  /\ count is_read_file (trace r) = 0%nat.
Proof.
  assert (Hf : fresh (mkVault "https://vault:8200/v1" "/ca.crt" false
                        (Some (mkAgent None (Some "cert"))) "t-9" (Num 100000))
                     1000).
  { exists 100000. split; [reflexivity | reflexivity]. }
  destruct (warm_request_is_one_call unreadable
              (sample_client returning_handler) get_secret
              (mkVault "https://vault:8200/v1" "/ca.crt" false
                 (Some (mkAgent None (Some "cert"))) "t-9" (Num 100000))
              1000 (mkAgent None (Some "cert")) eq_refl Hf)
    as (Hv & Hn & _ & Hr & _).
  split; [exact Hv|]. split; [exact Hn | exact Hr].
Defined.

Lemma count_nil (p : Event -> bool) : count p [] = 0%nat.
Proof. reflexivity. Qed.

Ltac count_events :=
  cbn [trace];
  repeat (rewrite count_app || rewrite count_cons || rewrite count_nil);
  cbn [is_network_call is_handler_call is_data_request is_auth_call].

Lemma login_call_one_post (w : World) (path role : string) (v : Vault) (t : Z) :
  (count is_network_call (trace (login_call w path role v t)) <= 1)%nat.
Proof.
  rewrite login_call_run. cbv zeta.
  destruct (readFile w path) as [contents|e]; [|count_events; lia].
  destruct (getHttpsAgent_keeps w v (t + Z.of_N (elapsed w (EvReadFile path))))
    as (_ & _ & Hn).
  destruct (getHttpsAgent w v _) as [[agent|e] v1 t2 tr];
    cbn [trace] in Hn; count_events; lia.
Qed.

(** X23.  One call of the Kubernetes strategy is one attempt: whatever
    the files and the server do, it posts at most once, calls the error
    handler at most once, sends no data request and does not call a
    strategy again. *)
Theorem kubernetes_is_one_attempt (w : World) (c : Client)
    (options : AuthOptions) (v : Vault) (t : Z) :
  let tr := trace (kubernetes w c options v t) in
  (count is_network_call tr <= 1)%nat
  /\ (count is_handler_call tr <= 1)%nat
  /\ count is_data_request tr = 0%nat
  /\ count is_auth_call tr = 0%nat.
Proof.
  intros tr. subst tr.
  split; [|split; [|split; [|apply kubernetes_no_auth_call]]].
  all: destruct (existsSync w (saTokenPath w options)) eqn:Hex;
    [|rewrite (kubernetes_missing_file w c options v t Hex);
      count_events; lia].
  all: pose proof (login_call_one_post w (saTokenPath w options)
                     (saRole w options) v t) as Hpost.
  all: pose proof (login_call_no_data_request w (saTokenPath w options)
                     (saRole w options) v t) as Hdata.
  all: destruct (login_call_keeps w (saTokenPath w options)
                   (saRole w options) v t) as (_ & _ & Hh).
  all: destruct (outcome (login_call w (saTokenPath w options)
                            (saRole w options) v t)) as [response|e] eqn:Hout.
  all: try (rewrite (kubernetes_rejected w c options v t e Hex Hout);
            count_events; lia).
  all: rewrite (kubernetes_resolved w c options v t response Hex Hout).
  all: destruct (truthy (response_token response)) eqn:E.
  all: try (rewrite (handle_response_unrecognized c response _ _ E);
            count_events; lia).
  all: unfold truthy in E;
    destruct (response_token response) as [tok|] eqn:Et; [|discriminate].
  all: rewrite (handle_response_recognized c response tok _ _ Et)
    by (intros ->; discriminate).
  all: count_events; lia.
Qed.
